(** * Medical diagnosis prediction pipeline: a shallow embedding

    The development follows the Python sources

    - [src/ml_models/base_model.py]    (cleaning, transformation, vectorisation),
    - [src/ml_models/random_forest.py] (the prediction path and the confidence
      calibration),
    - [src/database/schemas.py], [src/database/models.py] (validation schemas
      and table constraints),
    - [src/services/diagnosis_service.py] (the orchestrator).

    Conventions of the embedding.

    - A Python [dict] with string keys is a [gmap string pyval].
    - A Python value met on these paths is [None], an [int], a [float] or a
      [str] ([pyval]).
    - A Python [float] is idealised as an exact rational [Q] (kept in lowest
      terms); rounding, overflow, infinities and NaN of IEEE binary64 are
      outside the model.  The calibration formula, which needs [exp], is
      stated over [R], the rational raw confidence being injected by [Q2R].
    - A call that may raise returns a [pyres]: [Ok v] or [Raise e], the
      exception [e] being identified by its class name. *)

From Stdlib Require Import QArith Qminmax Qabs Qreals Reals Lra Lia ZArith String Ascii List.
From Stdlib Require Lqa.
From stdpp Require Import gmap strings list fin_maps pretty.

Open Scope string_scope.
Open Scope Z_scope.

(** ** Exceptions and fallible results *)

Definition exn := string.

Inductive pyres (A : Type) : Type :=
| Ok (a : A)
| Raise (e : exn).
Arguments Ok {A} a.
Arguments Raise {A} e.

#[global] Instance pyres_ret : MRet pyres := fun _ a => Ok a.
#[global] Instance pyres_bind : MBind pyres := fun _ _ f m =>
  match m with
  | Ok a => f a
  | Raise e => Raise e
  end.

Definition raises {A} (r : pyres A) : Prop := exists e, r = Raise e.
Definition returns {A} (r : pyres A) : Prop := exists a, r = Ok a.

(** [mapM f l]: a list comprehension [[f(x) for x in l]]; the first element
    on which [f] raises aborts the whole comprehension. *)
Fixpoint mapM {A B} (f : A -> pyres B) (l : list A) : pyres (list B) :=
  match l with
  | [] => Ok []
  | x :: rest =>
      y ← f x;
      ys ← mapM f rest;
      Ok (y :: ys)
  end.

(** ** Python values and the builtins used by the pipeline *)

Module Py.

Inductive pyval : Type :=
| VNone
| VInt (z : Z)
| VFloat (q : Q)
| VStr (s : string).

(** [value is None or value == ''] *)
Definition is_none_or_empty (v : pyval) : bool :=
  match v with
  | VNone => true
  | VStr s => String.eqb s ""
  | _ => false
  end.

(** [d.get(key, default)] *)
Definition dict_get (d : gmap string pyval) (key : string) (default : pyval) : pyval :=
  match d !! key with
  | Some v => v
  | None => default
  end.

(** *** Characters *)

Definition is_digit (c : ascii) : bool :=
  let n := nat_of_ascii c in ((48 <=? n) && (n <=? 57))%nat.

Definition digit_val (c : ascii) : Z := Z.of_nat (nat_of_ascii c - 48).

(** ASCII white space as stripped by [float()]: space, \t, \n, \v, \f, \r. *)
Definition is_space (c : ascii) : bool :=
  let n := nat_of_ascii c in ((n =? 32) || ((9 <=? n) && (n <=? 13)))%nat.

Fixpoint lstrip (cs : list ascii) : list ascii :=
  match cs with
  | c :: rest => if is_space c then lstrip rest else cs
  | [] => []
  end.

Definition strip (cs : list ascii) : list ascii :=
  rev (lstrip (rev (lstrip cs))).

(** *** [str.split('/')] and ['/' in s] *)

Fixpoint split_on (sep : ascii) (cur : string) (s : string) : list string :=
  match s with
  | EmptyString => [String.rev cur]
  | String c rest =>
      if Ascii.eqb c sep then String.rev cur :: split_on sep "" rest
      else split_on sep (String c cur) rest
  end.

Definition split_slash (s : string) : list string := split_on "/"%char "" s.

Fixpoint contains_char (c : ascii) (s : string) : bool :=
  match s with
  | EmptyString => false
  | String d rest => Ascii.eqb d c || contains_char c rest
  end.

Definition has_slash (s : string) : bool := contains_char "/"%char s.

(** *** [float(str)]

    The decimal grammar of Python's [float()]: optional surrounding white
    space, an optional sign, digits with single underscores between digits,
    an optional fraction and an optional exponent.  The literals [inf],
    [infinity] and [nan] denote IEEE values with no rational counterpart and
    are not part of the idealised model. *)

(** Reads a [digitpart]; [acc] is the number read so far and [n] the number
    of digits already read in this digit part. *)
Fixpoint read_digits (cs : list ascii) (acc : Z) (n : nat) : Z * nat * list ascii :=
  match cs with
  | c :: rest =>
      if is_digit c then read_digits rest (10 * acc + digit_val c) (S n)
      else if Ascii.eqb c "_"%char && (0 <? n)%nat then
        match rest with
        | d :: _ => if is_digit d then read_digits rest acc n else (acc, n, cs)
        | [] => (acc, n, cs)
        end
      else (acc, n, cs)
  | [] => (acc, n, cs)
  end.

Definition read_sign (cs : list ascii) : bool * list ascii :=
  match cs with
  | "-"%char :: rest => (true, rest)
  | "+"%char :: rest => (false, rest)
  | _ => (false, cs)
  end.

(** The exponent part: [None] when malformed, otherwise the exponent read
    (0 when absent) and the remaining input. *)
Definition read_exponent (cs : list ascii) : option (Z * list ascii) :=
  match cs with
  | c :: rest =>
      if Ascii.eqb c "e"%char || Ascii.eqb c "E"%char then
        let '(neg, rest1) := read_sign rest in
        let '(e, n, rest2) := read_digits rest1 0 0%nat in
        if (0 <? n)%nat then Some (if neg then - e else e, rest2) else None
      else Some (0, cs)
  | [] => Some (0, cs)
  end.

(** [m * 10^e] as a rational in lowest terms. *)
Definition scale10 (m e : Z) : Q :=
  if 0 <=? e then inject_Z (m * 10 ^ e)
  else Qred (Qmake m (Z.to_pos (10 ^ (- e)))).

Definition parse_float (s : string) : option Q :=
  let cs := strip (list_ascii_of_string s) in
  let '(neg, cs1) := read_sign cs in
  let '(ipart, ni, cs2) := read_digits cs1 0 0%nat in
  let '(mant, nf, cs3) :=
    match cs2 with
    | "."%char :: rest => read_digits rest ipart 0%nat
    | _ => (ipart, 0%nat, cs2)
    end in
  if (0 <? ni + nf)%nat then
    match read_exponent cs3 with
    | Some (e, []) =>
        let m := if neg then - mant else mant in
        Some (scale10 m (e - Z.of_nat nf))
    | _ => None
    end
  else None.

(** [float(value)] *)
Definition float (v : pyval) : pyres Q :=
  match v with
  | VNone => Raise "TypeError"
  | VInt z => Ok (inject_Z z)
  | VFloat q => Ok q
  | VStr s =>
      match parse_float s with
      | Some q => Ok q
      | None => Raise "ValueError"
      end
  end.

(** *** [str(float)]

    The positional form of [repr]: integer part, a point, and the fractional
    digits (at least one, at most 17). *)
Fixpoint frac_digits (fuel : nat) (r d : Z) : string :=
  match fuel with
  | O => ""
  | S fuel' =>
      let r10 := 10 * r in
      pretty (r10 / d) +:+ (if r10 mod d =? 0 then "" else frac_digits fuel' (r10 mod d) d)
  end.

Definition str_float (q : Q) : string :=
  let n := Qnum q in
  let d := Zpos (Qden q) in
  let a := Z.abs n in
  (if n <? 0 then "-" else "") +:+ pretty (a / d) +:+ "." +:+ frac_digits 17 (a mod d) d.

(** *** [numpy.clip] on scalars: [minimum(maximum(x, lo), hi)] *)
Definition np_clip (x lo hi : Q) : Q := Qmin (Qmax x lo) hi.

End Py.
Export Py.

(** ** The scikit-learn objects held by a model

    [StandardScaler] and the classifier are library objects.  What the
    pipeline relies on is kept: an estimator is either unfitted or fitted for
    a number of features, its methods raise [NotFittedError] before fitting
    and [ValueError] on a row of another length, and a fitted scaler maps
    each feature [x] to [(x - mean) / scale] with the stored parameters. *)

Module Sklearn.

Inductive StandardScaler : Type :=
| ScalerUnfitted
| ScalerFitted (mean_ scale_ : list Q).

Definition standardize (x : Q) (ms : Q * Q) : Q :=
  Qred ((x - fst ms) / snd ms).

(** [scaler.transform(features)] on a single row. *)
Definition scaler_transform (sc : StandardScaler) (row : list Q) : pyres (list Q) :=
  match sc with
  | ScalerUnfitted => Raise "NotFittedError"
  | ScalerFitted mean_ scale_ =>
      if (length row =? length mean_)%nat
      then Ok (zip_with standardize row (zip mean_ scale_))
      else Raise "ValueError"
  end.

Inductive Classifier : Type :=
| ClfUnfitted
| ClfFitted (n_features_in_ : nat)
    (decide_label : list Q -> Z) (class_distribution : list Q -> list Q).

(** [clf.predict(X)] on a single row: the array of predicted labels. *)
Definition clf_predict (clf : Classifier) (row : list Q) : pyres (list Z) :=
  match clf with
  | ClfUnfitted => Raise "NotFittedError"
  | ClfFitted n decide_label _ =>
      if (length row =? n)%nat then Ok [decide_label row] else Raise "ValueError"
  end.

(** [clf.predict_proba(X)] on a single row: one distribution per row. *)
Definition clf_predict_proba (clf : Classifier) (row : list Q) : pyres (list (list Q)) :=
  match clf with
  | ClfUnfitted => Raise "NotFittedError"
  | ClfFitted n _ class_distribution =>
      if (length row =? n)%nat then Ok [class_distribution row] else Raise "ValueError"
  end.

(** [np.max] of a one-dimensional array. *)
Definition np_max (l : list Q) : pyres Q :=
  match l with
  | [] => Raise "ValueError"
  | x :: rest => Ok (fold_left Qmax rest x)
  end.

End Sklearn.
Export Sklearn.

(** ** [BaseDiagnosisModel] (base_model.py) *)

(** The attributes [self.model] and [self.scaler]; both are [None] after
    [BaseDiagnosisModel.__init__]. *)
Record ModelState : Type := {
  model : option Classifier;
  scaler : option StandardScaler
}.

(** The methods a concrete model provides or overrides; the base class calls
    them through [self]. *)
Class DiagnosisModel : Type := {
  self_preprocess_data : ModelState -> gmap string pyval -> pyres (list Q);
  self_predict : ModelState -> list Q -> pyres (list Z);
  self_get_confidence_score : ModelState -> list Q -> pyres R
}.

Module BaseDiagnosisModel.

Definition init : ModelState := {| model := None; scaler := None |}.

Definition feature_names : list string :=
  [ "glucose_level"; "blood_pressure"; "skin_thickness";
    "insulin_level"; "bmi"; "diabetes_pedigree_function"; "age" ].

(** [systolic, diastolic = map(float, s.split('/'))]: the lazy [map] is
    consumed by the unpacking, which asks for a third element before it
    accepts two. *)
Definition unpack_pair (s : string) : pyres (Q * Q) :=
  match split_slash s with
  | [] => Raise "ValueError"
  | a :: rest =>
      x ← float (VStr a);
      match rest with
      | [] => Raise "ValueError"
      | b :: rest' =>
          y ← float (VStr b);
          match rest' with
          | [] => Ok (x, y)
          | c :: _ => _ ← float (VStr c); Raise "ValueError"
          end
      end
  end.

(** Mean arterial pressure, [(systolic + 2 * diastolic) / 3]. *)
Definition mean_arterial_pressure (systolic diastolic : Q) : Q :=
  Qred ((systolic + 2 * diastolic) / 3).

(** The body of the loop of [clean_data] for one feature, after the
    defaulting of a missing value. *)
Definition clean_value (feature : string) (value : pyval) : pyres pyval :=
  if String.eqb feature "glucose_level" then
    x ← float value; Ok (VFloat (np_clip x 0 500))
  else if String.eqb feature "blood_pressure" then
    match value with
    | VStr s =>
        if has_slash s then
          p ← unpack_pair s;
          let systolic := np_clip (fst p) 70 200 in
          let diastolic := np_clip (snd p) 40 130 in
          Ok (VStr (str_float systolic +:+ "/" +:+ str_float diastolic))
        else Ok value
    | _ => Ok value
    end
  else if String.eqb feature "skin_thickness" then
    x ← float value; Ok (VFloat (np_clip x 0 100))
  else if String.eqb feature "insulin_level" then
    x ← float value; Ok (VFloat (np_clip x 0 1000))
  else if String.eqb feature "bmi" then
    x ← float value; Ok (VFloat (np_clip x 0 100))
  else if String.eqb feature "diabetes_pedigree_function" then
    x ← float value; Ok (VFloat (np_clip x 0 10))
  else if String.eqb feature "age" then
    x ← float value; Ok (VFloat (np_clip x 0 120))
  else Ok value.

(** [value = data.get(feature, 0)], then the replacement of [None] and of
    the empty string by 0. *)
Definition raw_value (data : gmap string pyval) (feature : string) : pyval :=
  let value := dict_get data feature (VInt 0) in
  if is_none_or_empty value then VInt 0 else value.

Fixpoint clean_loop (features : list string) (data cleaned_data : gmap string pyval)
  : pyres (gmap string pyval) :=
  match features with
  | [] => Ok cleaned_data
  | feature :: rest =>
      value ← clean_value feature (raw_value data feature);
      clean_loop rest data (<[feature := value]> cleaned_data)
  end.

Definition clean_data (data : gmap string pyval) : pyres (gmap string pyval) :=
  clean_loop feature_names data ∅.

Definition transform_data (data : gmap string pyval) : pyres (gmap string pyval) :=
  match data !! "blood_pressure" with
  | Some (VStr bp_str) =>
      if has_slash bp_str then
        p ← unpack_pair bp_str;
        Ok (<["blood_pressure" := VFloat (mean_arterial_pressure (fst p) (snd p))]> data)
      else Ok data
  | _ => Ok data
  end.

Definition create_feature_vector (data : gmap string pyval) : pyres (list Q) :=
  mapM (fun feature => float (dict_get data feature (VInt 0))) feature_names.

(** [if self.scaler: features = self.scaler.transform(features)] *)
Definition scale_if_present (self : ModelState) (features : list Q) : pyres (list Q) :=
  match scaler self with
  | Some sc => scaler_transform sc features
  | None => Ok features
  end.

Definition preprocess_data (self : ModelState) (data : gmap string pyval) : pyres (list Q) :=
  cleaned_data ← clean_data data;
  transformed_data ← transform_data cleaned_data;
  features ← create_feature_vector transformed_data;
  scale_if_present self features.

(** [int(prediction[0])] *)
Definition first_label (prediction : list Z) : pyres Z :=
  match prediction with
  | [] => Raise "IndexError"
  | l :: _ => Ok l
  end.

(** The method is inherited unchanged by every model: [self.preprocess_data],
    [self.predict] and [self.get_confidence_score] are those of the instance. *)
Definition get_prediction_with_confidence `{DiagnosisModel}
  (self : ModelState) (data : gmap string pyval) : pyres (Z * R) :=
  features ← self_preprocess_data self data;
  prediction ← self_predict self features;
  confidence ← self_get_confidence_score self features;
  label ← first_label prediction;
  Ok (label, confidence).

End BaseDiagnosisModel.

(** ** [RandomForestModel] (random_forest.py) *)

Module RandomForestModel.

(** The body of the [try] block of [preprocess_blood_pressure]: a value that
    is not a string has no attribute [split]. *)
Definition preprocess_blood_pressure_try (bp_str : pyval) : pyres Q :=
  match bp_str with
  | VStr s =>
      p ← BaseDiagnosisModel.unpack_pair s;
      Ok (BaseDiagnosisModel.mean_arterial_pressure (fst p) (snd p))
  | _ => Raise "AttributeError"
  end.

(** [except (ValueError, AttributeError): return 0.0] *)
Definition preprocess_blood_pressure (bp_str : pyval) : pyres Q :=
  match preprocess_blood_pressure_try bp_str with
  | Ok x => Ok x
  | Raise e =>
      if String.eqb e "ValueError" || String.eqb e "AttributeError"
      then Ok 0%Q
      else Raise e
  end.

(** The first half of the override of [preprocess_data]: the copy of the
    input with its blood pressure replaced, and the row of features read
    from it. *)
Definition feature_row (data : gmap string pyval) : pyres (list Q) :=
  processed_data ←
    match data !! "blood_pressure" with
    | Some bp =>
        x ← preprocess_blood_pressure bp;
        Ok (<["blood_pressure" := VFloat x]> data)
    | None => Ok data
    end;
  mapM (fun feature => float (dict_get processed_data feature (VInt 0)))
       BaseDiagnosisModel.feature_names.

(** The override of [preprocess_data]. *)
Definition preprocess_data (self : ModelState) (data : gmap string pyval) : pyres (list Q) :=
  features ← feature_row data;
  BaseDiagnosisModel.scale_if_present self features.

(** [self.model.predict(X)]; [self.model] may be [None]. *)
Definition predict (self : ModelState) (X : list Q) : pyres (list Z) :=
  match model self with
  | None => Raise "AttributeError"
  | Some clf => clf_predict clf X
  end.

(** The sigmoid rescaling [100 / (1 + exp(-0.1 * (confidence - 50)))]. *)
Definition scaled_confidence (confidence : R) : R :=
  (100 / (1 + exp (- (1 / 10) * (confidence - 50))))%R.

(** [float(np.max(probabilities[0]) * 100)] *)
Definition raw_confidence (probabilities : list (list Q)) : pyres Q :=
  match probabilities with
  | [] => Raise "IndexError"
  | row :: _ => m ← np_max row; Ok (m * 100)%Q
  end.

Definition get_confidence_score (self : ModelState) (X : list Q) : pyres R :=
  match model self with
  | None => Raise "AttributeError"
  | Some clf =>
      probabilities ← clf_predict_proba clf X;
      confidence ← raw_confidence probabilities;
      Ok (scaled_confidence (Q2R confidence))
  end.

#[global] Instance methods : DiagnosisModel := {|
  self_preprocess_data := preprocess_data;
  self_predict := predict;
  self_get_confidence_score := get_confidence_score
|}.

(** The state left by [__init__]: the classifier and the scaler have been
    fitted by [train] on the seven-column training matrix. *)
Definition trained (self : ModelState) : Prop :=
  exists decide_label class_distribution mean_ scale_,
    model self = Some (ClfFitted 7 decide_label class_distribution) /\
    scaler self = Some (ScalerFitted mean_ scale_) /\
    length mean_ = 7%nat /\ length scale_ = 7%nat.

End RandomForestModel.

(** ** Validation schemas (schemas.py) *)

Module Schemas.

(** [Optional[confloat(gt=0)] = None] *)
Definition optional_confloat_gt0 (v : pyval) : pyres (option Q) :=
  match v with
  | VNone => Ok None
  | _ =>
      match float v with
      | Ok x => if Qlt_le_dec 0 x then Ok (Some x) else Raise "ValidationError"
      | Raise _ => Raise "ValidationError"
      end
  end.

(** [Optional[float] = None] *)
Definition optional_float (v : pyval) : pyres (option Q) :=
  match v with
  | VNone => Ok None
  | _ =>
      match float v with
      | Ok x => Ok (Some x)
      | Raise _ => Raise "ValidationError"
      end
  end.

(** [Optional[str] = None] *)
Definition optional_str (v : pyval) : pyres (option string) :=
  match v with
  | VNone => Ok None
  | VStr s => Ok (Some s)
  | _ => Raise "ValidationError"
  end.

(** [conint(gt=0)], a required field: a number is accepted when it has no
    fractional part. *)
Definition conint_gt0 (v : pyval) : pyres Z :=
  match float v with
  | Ok x =>
      let r := Qred x in
      if Pos.eqb (Qden r) 1 && (0 <? Qnum r) then Ok (Qnum r)
      else Raise "ValidationError"
  | Raise _ => Raise "ValidationError"
  end.

Record MedicalParameterCreate : Type := {
  mpc_record_id : Z;
  mpc_glucose_level : option Q;
  mpc_blood_pressure : option string;
  mpc_skin_thickness : option Q;
  mpc_insulin_level : option Q;
  mpc_bmi : option Q;
  mpc_diabetes_pedigree_function : option Q;
  mpc_age : Z
}.

Definition MedicalParameterCreate_new (record_id : Z)
  (glucose_level blood_pressure skin_thickness insulin_level bmi
   diabetes_pedigree_function age : pyval) : pyres MedicalParameterCreate :=
  g ← optional_confloat_gt0 glucose_level;
  bp ← optional_str blood_pressure;
  st ← optional_confloat_gt0 skin_thickness;
  ins ← optional_confloat_gt0 insulin_level;
  b ← optional_confloat_gt0 bmi;
  dpf ← optional_float diabetes_pedigree_function;
  a ← conint_gt0 age;
  Ok {| mpc_record_id := record_id; mpc_glucose_level := g; mpc_blood_pressure := bp;
        mpc_skin_thickness := st; mpc_insulin_level := ins; mpc_bmi := b;
        mpc_diabetes_pedigree_function := dpf; mpc_age := a |}.

Record DiagnosisCreate : Type := {
  dc_disease_id : Z;
  dc_confidence_score : R;
  dc_notes : option string;
  dc_model_version : string;
  dc_status : string;
  dc_record_id : Z
}.

(** [confidence_score: confloat(ge=0, le=100)]; [status] defaults to
    ["pending"]. *)
Definition DiagnosisCreate_new (disease_id record_id : Z) (confidence_score : R)
  (model_version : string) (notes : option string) : pyres DiagnosisCreate :=
  if Rle_dec 0 confidence_score then
    if Rle_dec confidence_score 100 then
      Ok {| dc_disease_id := disease_id; dc_confidence_score := confidence_score;
            dc_notes := notes; dc_model_version := model_version;
            dc_status := "pending"; dc_record_id := record_id |}
    else Raise "ValidationError"
  else Raise "ValidationError".

End Schemas.

(** ** Tables (models.py) and the session

    A [Session] holds the committed rows of the three tables the orchestrator
    touches.  Timestamps filled in by column defaults are left out. *)

Module Models.

Record MedicalParameter : Type := {
  parameter_id : Z;
  mp_record_id : Z;
  glucose_level : option Q;
  blood_pressure : option string;
  skin_thickness : option Q;
  insulin_level : option Q;
  bmi : option Q;
  diabetes_pedigree_function : option Q;
  age : Z
}.

Record Disease : Type := {
  disease_id : Z;
  name : string;
  description : option string;
  icd_10_code : option string;
  severity_level : option string
}.

Record Diagnosis : Type := {
  diagnosis_id : Z;
  dg_record_id : Z;
  dg_disease_id : Z;
  confidence_score : R;
  notes : option string;
  model_version : string;
  status : string
}.

Record Session : Type := {
  medical_parameters : list MedicalParameter;
  diseases : list Disease;
  diagnoses : list Diagnosis
}.

(** A nullable column satisfies a [CHECK (col > 0)] when it is NULL. *)
Definition check_positive (x : option Q) : bool :=
  match x with
  | None => true
  | Some q => if Qlt_le_dec 0 q then true else false
  end.

(** [chk_glucose_level], [chk_bmi], [chk_age] *)
Definition medical_parameter_checks (row : MedicalParameter) : bool :=
  check_positive (glucose_level row) && check_positive (bmi row) && (0 <? age row).

(** The next value of an auto-incremented primary key. *)
Definition next_id {A} (rows : list A) : Z := Z.of_nat (length rows) + 1.

End Models.
Export Models.

(** ** [DiagnosisService] (diagnosis_service.py) *)

(** A method working on the session: the session after the call and the
    result or the exception. *)
Definition db_action (A : Type) : Type := Session -> Session * pyres A.

#[global] Instance db_ret : MRet db_action := fun _ a db => (db, Ok a).
#[global] Instance db_bind : MBind db_action := fun _ _ f m db =>
  match m db with
  | (db', Ok a) => f a db'
  | (db', Raise e) => (db', Raise e)
  end.

(** A computation that does not touch the session. *)
Definition lift_res {A} (r : pyres A) : db_action A := fun db => (db, r).

Module DiagnosisService.

Import Schemas.

Definition DEFAULT_MODEL : string := "random_forest".

(** [db.add(row); db.commit(); db.refresh(row)] for the table
    [medical_parameters]: a row violating a check constraint is refused and
    the table is left as it was. *)
Definition commit_medical_parameter (data : MedicalParameterCreate) : db_action MedicalParameter :=
  fun db =>
    let row := {| parameter_id := next_id (medical_parameters db);
                  mp_record_id := mpc_record_id data;
                  glucose_level := mpc_glucose_level data;
                  blood_pressure := mpc_blood_pressure data;
                  skin_thickness := mpc_skin_thickness data;
                  insulin_level := mpc_insulin_level data;
                  bmi := mpc_bmi data;
                  diabetes_pedigree_function := mpc_diabetes_pedigree_function data;
                  age := mpc_age data |} in
    if medical_parameter_checks row then
      ({| medical_parameters := medical_parameters db ++ [row];
          diseases := diseases db;
          diagnoses := diagnoses db |}, Ok row)
    else (db, Raise "IntegrityError").

(** The same for the table [diagnoses], with [chk_confidence_score]. *)
Definition commit_diagnosis (data : DiagnosisCreate) : db_action Diagnosis :=
  fun db =>
    let row := {| diagnosis_id := next_id (diagnoses db);
                  dg_record_id := dc_record_id data;
                  dg_disease_id := dc_disease_id data;
                  confidence_score := dc_confidence_score data;
                  notes := dc_notes data;
                  model_version := dc_model_version data;
                  status := dc_status data |} in
    if Rle_dec 0 (confidence_score row) then
      if Rle_dec (confidence_score row) 100 then
        ({| medical_parameters := medical_parameters db;
            diseases := diseases db;
            diagnoses := diagnoses db ++ [row] |}, Ok row)
      else (db, Raise "IntegrityError")
    else (db, Raise "IntegrityError").

(** [params.get(key)] *)
Definition params_get (params : gmap string pyval) (key : string) : pyval :=
  dict_get params key VNone.

Definition create_medical_parameters (params : gmap string pyval) (record_id : Z)
  : db_action MedicalParameter :=
  param_data ← lift_res (MedicalParameterCreate_new record_id
    (params_get params "glucose_level")
    (params_get params "blood_pressure")
    (params_get params "skin_thickness")
    (params_get params "insulin_level")
    (params_get params "bmi")
    (params_get params "diabetes_pedigree_function")
    (params_get params "age"));
  commit_medical_parameter param_data.

Definition create_diagnosis (disease_id record_id : Z) (confidence_score : R)
  (model_version : string) (notes : option string) : db_action Diagnosis :=
  diagnosis_data ← lift_res (DiagnosisCreate_new disease_id record_id confidence_score
                               model_version notes);
  commit_diagnosis diagnosis_data.

(** [db.query(Disease).filter(Disease.disease_id == prediction).first()] *)
Definition find_disease (prediction : Z) (db : Session) : option Disease :=
  List.find (fun d => disease_id d =? prediction) (diseases db).

Definition query_disease (prediction : Z) : db_action (option Disease) :=
  fun db => (db, Ok (find_disease prediction db)).

(** [disease.disease_id], where [disease] may be [None]. *)
Definition attr_disease_id (disease : option Disease) : pyres Z :=
  match disease with
  | Some d => Ok (disease_id d)
  | None => Raise "AttributeError"
  end.

(** [self.model] is the [RandomForestModel] built by [_load_model]. *)
Definition predict_disease (self : ModelState) (params : gmap string pyval) (record_id : Z)
  : db_action (option Disease * R) :=
  _ ← create_medical_parameters params record_id;
  pc ← lift_res (@BaseDiagnosisModel.get_prediction_with_confidence
                   RandomForestModel.methods self params);
  disease ← query_disease (fst pc);
  did ← lift_res (attr_disease_id disease);
  _ ← create_diagnosis did record_id (snd pc) DEFAULT_MODEL
        (Some ("Automated diagnosis using " +:+ DEFAULT_MODEL));
  mret (disease, snd pc).

End DiagnosisService.

(** ** Vocabulary of the statements and sample inputs *)

(** A blood-pressure value of the form "S/D": a string with two parts around
    one slash, each read by [float]. *)
Definition bp_well_formed (v : pyval) (S D : Q) : Prop :=
  exists s a b, v = VStr s /\ split_slash s = [a; b] /\
                float (VStr a) = Ok S /\ float (VStr b) = Ok D.

(** The ranges documented for the six scalar fields. *)
Definition documented_bounds : list (string * (Q * Q)) :=
  [ ("glucose_level", (0, 500)%Q);
    ("skin_thickness", (0, 100)%Q);
    ("insulin_level", (0, 1000)%Q);
    ("bmi", (0, 100)%Q);
    ("diabetes_pedigree_function", (0, 10)%Q);
    ("age", (0, 120)%Q) ].




Definition bp_120_80 : gmap string pyval :=
  <["glucose_level" := VInt 100]> {[ "blood_pressure" := VStr "120/80" ]}.

Definition glucose_minus_50 : gmap string pyval := {[ "glucose_level" := VInt (-50) ]}.
Definition glucose_9000 : gmap string pyval := {[ "glucose_level" := VInt 9000 ]}.

Definition cleaned_9000 : gmap string pyval :=
  match BaseDiagnosisModel.clean_data glucose_9000 with Ok c => c | Raise _ => ∅ end.

Definition identity_scaler : StandardScaler :=
  ScalerFitted [0; 0; 0; 0; 0; 0; 0]%Q [1; 1; 1; 1; 1; 1; 1]%Q.

(** A stand-in for a trained forest: it answers label 2 with the
    distribution (0, 0.1, 0.9) on every row. *)
Definition sample_classifier : Classifier :=
  ClfFitted 7 (fun _ => 2) (fun _ => [0; 1 # 10; 9 # 10]%Q).

Definition sample_model : ModelState :=
  {| model := Some sample_classifier; scaler := Some identity_scaler |}.

(** The row of the training set labelled "advanced diabetes". *)
Definition seeded_row : gmap string pyval :=
  <["glucose_level" := VInt 150]>
  (<["blood_pressure" := VStr "150/115"]>
  (<["skin_thickness" := VInt 38]>
  (<["insulin_level" := VInt 170]>
  (<["bmi" := VInt 32]>
  (<["diabetes_pedigree_function" := VFloat (4 # 5)]>
  (<["age" := VInt 70]> ∅)))))).

Definition empty_db : Session :=
  {| medical_parameters := []; diseases := []; diagnoses := [] |}.

(** The two diseases inserted by [scripts/seed_data.py]. *)
Definition seeded_db : Session :=
  {| medical_parameters := [];
     diseases :=
       [ {| disease_id := 1; name := "Type 2 Diabetes"; description := None;
            icd_10_code := Some "E11"; severity_level := Some "moderate" |};
         {| disease_id := 2; name := "Hypertension"; description := None;
            icd_10_code := Some "I10"; severity_level := Some "moderate" |} ];
     diagnoses := [] |}.

Abbreviation rf_prediction self params :=
  (@BaseDiagnosisModel.get_prediction_with_confidence RandomForestModel.methods self params).

Abbreviation diagnosis_note :=
  (Some ("Automated diagnosis using " +:+ DiagnosisService.DEFAULT_MODEL)).

(** ** Further functions of the same files *)

(** [RandomForestModel.get_feature_importance]:
    [dict(zip(self.feature_names, importance_scores))]; in a [dict] built
    from pairs a later pair replaces an earlier one with the same key. *)
Definition get_feature_importance (importance_scores : list Q) : gmap string Q :=
  fold_left (fun d kv => <[fst kv := snd kv]> d)
            (zip BaseDiagnosisModel.feature_names importance_scores) ∅.

(** ** The diagnosis page (frontend/pages/diagnosis.py) *)

Module DiagnosisPage.

(** Truth value of a number in [all([...])]: zero is false. *)
Definition truthy_float (q : Q) : bool := negb (Qeq_bool q 0).
Definition truthy_int (z : Z) : bool := negb (z =? 0).

(** [render_diagnosis_form]: the values read from the widgets and the state
    of the submit button are the inputs; the result is the dictionary handed
    to the service, or [None]. *)
Definition render_diagnosis_form (glucose_level : Q) (systolic diastolic : Z)
  (skin_thickness insulin_level bmi diabetes_pedigree : Q) (age : Z)
  (submitted : bool) : option (gmap string pyval) :=
  let blood_pressure := pretty systolic +:+ "/" +:+ pretty diastolic in
  if submitted then
    if truthy_float glucose_level && truthy_float skin_thickness &&
       truthy_float insulin_level && truthy_float bmi &&
       truthy_float diabetes_pedigree && truthy_int age
    then
      Some (<["glucose_level" := VFloat glucose_level]>
           (<["blood_pressure" := VStr blood_pressure]>
           (<["skin_thickness" := VFloat skin_thickness]>
           (<["insulin_level" := VFloat insulin_level]>
           (<["bmi" := VFloat bmi]>
           (<["diabetes_pedigree_function" := VFloat diabetes_pedigree]>
           (<["age" := VInt age]> ∅)))))))
    else None
  else None.

(** The recommendation chosen at the end of [display_diagnosis_result]. *)
Inductive recommendation : Type :=
| HighConfidence
| ModerateConfidence
| LowConfidence.

Definition recommend (confidence : R) : recommendation :=
  if Rle_dec 90 confidence then HighConfidence
  else if Rle_dec 70 confidence then ModerateConfidence
  else LowConfidence.

End DiagnosisPage.

(** The bounds the widgets of the form enforce on the values they return
    ([min_value], [max_value]). *)
Definition widget_ranges (glucose_level : Q) (systolic diastolic : Z)
  (skin_thickness insulin_level bmi diabetes_pedigree : Q) (age : Z) : Prop :=
  (0 <= glucose_level <= 500)%Q /\ 70 <= systolic <= 200 /\ 40 <= diastolic <= 130 /\
  (0 <= skin_thickness <= 100)%Q /\ (0 <= insulin_level <= 1000)%Q /\
  (0 <= bmi <= 100)%Q /\ (0 <= diabetes_pedigree <= 10)%Q /\ 0 <= age <= 120.

(** The scalar fields of a mapping hold numbers within the documented
    ranges. *)
Definition in_documented_range (v : option pyval) (lo hi : Q) : Prop :=
  exists x, (v = Some (VFloat x) \/ exists z, v = Some (VInt z) /\ x = inject_Z z) /\
            (lo <= x <= hi)%Q.


(** Every integer from [lo], [n] of them, passes the test [p]. *)
Fixpoint all_from (p : Z -> bool) (lo : Z) (n : nat) : bool :=
  match n with
  | O => true
  | S n' => p lo && all_from p (lo + 1) n'
  end.

(** The decimal form of an integer is read back by [float] as that integer
    and has no slash, and so has the text printed for the same value as a
    float. *)
Definition int_text_ok (z : Z) : bool :=
  match parse_float (pretty z), parse_float (str_float (inject_Z z)) with
  | Some q, Some q' =>
      (Qnum q =? z) && Pos.eqb (Qden q) 1 && (Qnum q' =? z) && Pos.eqb (Qden q') 1 &&
      negb (has_slash (pretty z)) && negb (has_slash (str_float (inject_Z z)))
  | _, _ => false
  end.

(** The exceptions that the prediction itself can raise. *)
Definition prediction_errors : list exn :=
  ["TypeError"; "ValueError"; "NotFittedError"; "AttributeError"; "IndexError"].

(** * Properties *)

(** ** Builtins *)

Lemma float_str_raise (s : string) (e : exn) :
  float (VStr s) = Raise e -> e = "ValueError".
Proof.
  unfold float. destruct (parse_float s); intros H; [discriminate | congruence].
Qed.

Lemma split_on_no_sep (sep : ascii) (s cur : string) :
  contains_char sep s = false -> exists x, split_on sep cur s = [x].
Proof.
  revert cur. induction s as [| c s IH]; intros cur H; simpl in *.
  - eauto.
  - apply orb_false_iff in H as [Hc Hs]. rewrite Hc. auto.
Qed.

Lemma split_slash_two_has_slash (s a b : string) :
  split_slash s = [a; b] -> has_slash s = true.
Proof.
  intros H. destruct (has_slash s) eqn:E; [reflexivity |].
  destruct (split_on_no_sep "/"%char s "" E) as [x Hx].
  unfold split_slash in H. congruence.
Qed.


(** ** The blood-pressure scalar *)

Section BloodPressure.

Import BaseDiagnosisModel.

Lemma unpack_pair_well_formed (s a b : string) (S D : Q) :
  split_slash s = [a; b] -> float (VStr a) = Ok S -> float (VStr b) = Ok D ->
  unpack_pair s = Ok (S, D).
Proof.
  intros Hs Ha Hb. unfold unpack_pair. rewrite Hs.
  cbn [mbind pyres_bind]. unfold mbind, pyres_bind. rewrite Ha, Hb. reflexivity.
Qed.

Lemma unpack_pair_inv (s : string) :
  (exists a b S D, split_slash s = [a; b] /\ float (VStr a) = Ok S /\
                   float (VStr b) = Ok D /\ unpack_pair s = Ok (S, D))
  \/ unpack_pair s = Raise "ValueError".
Proof.
  unfold unpack_pair, mbind, pyres_bind.
  destruct (split_slash s) as [| a [| b [| c rest]]] eqn:Hs; auto.
  - destruct (float (VStr a)) eqn:Ha; auto.
    right. f_equal. eauto using float_str_raise.
  - destruct (float (VStr a)) as [S |] eqn:Ha.
    + destruct (float (VStr b)) as [D |] eqn:Hb.
      * left. exists a, b, S, D. auto.
      * right. f_equal. eauto using float_str_raise.
    + right. f_equal. eauto using float_str_raise.
  - destruct (float (VStr a)) eqn:Ha.
    + destruct (float (VStr b)) eqn:Hb.
      * destruct (float (VStr c)) eqn:Hc; auto.
        right. f_equal. eauto using float_str_raise.
      * right. f_equal. eauto using float_str_raise.
    + right. f_equal. eauto using float_str_raise.
Qed.

Lemma mean_arterial_pressure_eq (S D : Q) :
  (mean_arterial_pressure S D == (S + 2 * D) / 3)%Q.
Proof. unfold mean_arterial_pressure. apply Qred_correct. Qed.

Lemma transform_data_other_keys (data t : gmap string pyval) (k : string) :
  transform_data data = Ok t -> k <> "blood_pressure" -> t !! k = data !! k.
Proof.
  unfold transform_data. intros H Hk.
  destruct (data !! "blood_pressure") as [[| | | bp] |]; try congruence.
  destruct (has_slash bp); [| congruence].
  unfold mbind, pyres_bind in H. destruct (unpack_pair bp); [| discriminate].
  injection H as <-. rewrite lookup_insert_ne; auto.
Qed.

End BloodPressure.

Section BloodPressureClaims.

Import BaseDiagnosisModel.

(** C3. [transform_data] replaces a blood-pressure string "S/D" by the single
    scalar (S + 2 D) / 3 and leaves every other key of the mapping as it was;
    [preprocess_blood_pressure] computes the same scalar; on "120/80" the
    scalar is within 1e-6 of (120 + 2 * 80) / 3. *)
Theorem transform_data_mean_arterial_pressure
  (data : gmap string pyval) (S D : Q) :
  (exists bp, data !! "blood_pressure" = Some bp /\ bp_well_formed bp S D) ->
  exists t m,
    transform_data data = Ok t /\
    t !! "blood_pressure" = Some (VFloat m) /\
    (m == (S + 2 * D) / 3)%Q /\
    (forall k, k <> "blood_pressure" -> t !! k = data !! k) /\
    (forall bp, data !! "blood_pressure" = Some bp ->
                RandomForestModel.preprocess_blood_pressure bp = Ok m) /\
    (data !! "blood_pressure" = Some (VStr "120/80") ->
       Qabs (m - (120 + 2 * 80) / 3) <= 1 / 1000000)%Q.
Proof.
  intros (bp & Hbp & s & a & b & -> & Hs & Ha & Hb).
  pose proof (unpack_pair_well_formed s a b S D Hs Ha Hb) as Hu.
  exists (<["blood_pressure" := VFloat (mean_arterial_pressure S D)]> data),
         (mean_arterial_pressure S D).
  repeat split.
  - unfold transform_data. rewrite Hbp, (split_slash_two_has_slash s a b Hs).
    unfold mbind, pyres_bind. rewrite Hu. reflexivity.
  - apply lookup_insert_eq.
  - apply mean_arterial_pressure_eq.
  - intros k Hk. rewrite lookup_insert_ne; auto.
  - intros bp' Hbp'. rewrite Hbp in Hbp'. injection Hbp' as <-.
    unfold RandomForestModel.preprocess_blood_pressure,
      RandomForestModel.preprocess_blood_pressure_try, mbind, pyres_bind.
    rewrite Hu. reflexivity.
  - intros H120. rewrite Hbp in H120. injection H120 as ->.
    vm_compute in Hs. injection Hs as <- <-.
    vm_compute in Ha. vm_compute in Hb.
    injection Ha as <-. injection Hb as <-. vm_compute. discriminate.
Qed.

Lemma transform_data_mean_arterial_pressure_witness :
  exists t m,
    transform_data bp_120_80 = Ok t /\
    t !! "blood_pressure" = Some (VFloat m) /\
    (m == (120 + 2 * 80) / 3)%Q /\
    (forall k, k <> "blood_pressure" -> t !! k = bp_120_80 !! k) /\
    (forall bp, bp_120_80 !! "blood_pressure" = Some bp ->
                RandomForestModel.preprocess_blood_pressure bp = Ok m) /\
    (bp_120_80 !! "blood_pressure" = Some (VStr "120/80") ->
       Qabs (m - (120 + 2 * 80) / 3) <= 1 / 1000000)%Q.
Proof.
  apply (transform_data_mean_arterial_pressure bp_120_80 120 80).
  exists (VStr "120/80"). split; [reflexivity |].
  exists "120/80", "120", "80". repeat split; reflexivity.
Defined.

Example transform_data_120_80 :
  (t ← transform_data bp_120_80; Ok (t !! "blood_pressure", t !! "glucose_level"))
  = Ok (Some (VFloat (280 # 3)), Some (VInt 100)).
Proof. reflexivity. Qed.



Example preprocess_blood_pressure_malformed :
  map RandomForestModel.preprocess_blood_pressure
      [VNone; VInt 120; VFloat 120; VStr "abc"; VStr "120"; VStr "a/b"; VStr "1/2/3"; VStr ""]
  = [Ok 0; Ok 0; Ok 0; Ok 0; Ok 0; Ok 0; Ok 0; Ok 0]%Q.
Proof. reflexivity. Qed.

End BloodPressureClaims.

(** ** Cleaning *)

Section Cleaning.

Import BaseDiagnosisModel.

Lemma feature_names_NoDup : NoDup feature_names.
Proof. apply NoDup_ListNoDup. repeat constructor; simpl; intuition discriminate. Qed.

Lemma clean_loop_lookup (fs : list string) (data : gmap string pyval) :
  NoDup fs ->
  forall c c', clean_loop fs data c = Ok c' ->
    (forall f, f ∈ fs ->
       exists v, clean_value f (raw_value data f) = Ok v /\ c' !! f = Some v) /\
    (forall f, f ∉ fs -> c' !! f = c !! f).
Proof.
  induction 1 as [| f fs Hf Hnd IH]; intros c c' H; simpl in H.
  - injection H as <-. split; [intros f Hin; inversion Hin | auto].
  - unfold mbind, pyres_bind in H.
    destruct (clean_value f (raw_value data f)) as [v |] eqn:Hv; [| discriminate].
    destruct (IH _ _ H) as [Hin Hout]. split.
    + intros g Hg. apply elem_of_cons in Hg as [-> | Hg]; [| auto].
      exists v. split; [exact Hv |]. rewrite (Hout f Hf). apply lookup_insert_eq.
    + intros g Hg. apply not_elem_of_cons in Hg as [Hne Hg].
      rewrite (Hout g Hg). apply lookup_insert_ne. congruence.
Qed.


Lemma clean_value_scalar (f : string) (lo hi : Q) (v : pyval) :
  In (f, (lo, hi)) documented_bounds ->
  clean_value f v = (x ← float v; Ok (VFloat (np_clip x lo hi))) /\
  f ∈ feature_names /\ (lo <= hi)%Q /\ np_clip (inject_Z 0) lo hi = 0%Q.
Proof.
  unfold documented_bounds. simpl In.
  intros [H | [H | [H | [H | [H | [H | []]]]]]]; injection H as <- <- <-;
    (split; [reflexivity | split; [| split; [discriminate | reflexivity]]]);
    unfold feature_names; set_solver.
Qed.




Example clean_data_glucose_minus_50 :
  (c ← clean_data glucose_minus_50; Ok (c !! "glucose_level")) = Ok (Some (VFloat 0)).
Proof. reflexivity. Qed.

Example clean_data_glucose_9000 :
  (c ← clean_data glucose_9000; Ok (c !! "glucose_level")) = Ok (Some (VFloat 500)).
Proof. reflexivity. Qed.

End Cleaning.

(** ** Confidence calibration *)

Section Calibration.

Import RandomForestModel.

Lemma exp_le_mono (x y : R) : (x <= y)%R -> (exp x <= exp y)%R.
Proof.
  intros [H | ->]; [left; apply exp_increasing; exact H | right; reflexivity].
Qed.

Lemma scaled_confidence_open_interval (raw : R) :
  (0 < scaled_confidence raw < 100)%R.
Proof.
  unfold scaled_confidence.
  pose proof (exp_pos (- (1 / 10) * (raw - 50))) as He.
  set (a := exp _) in *.
  assert (Hinv : (0 < / (1 + a) < 1)%R).
  { split.
    - apply Rinv_0_lt_compat. lra.
    - rewrite <- Rinv_1. apply Rinv_lt_contravar; lra. }
  unfold Rdiv. lra.
Qed.

(** C4. The calibration 100 / (1 + e^(-0.1 (raw - 50))) is non-decreasing
    in [raw] over the reals, and maps 50 to 50. *)
Theorem scaled_confidence_monotone_fixpoint :
  (forall raw1 raw2 : R,
     (raw1 <= raw2)%R -> (scaled_confidence raw1 <= scaled_confidence raw2)%R) /\
  scaled_confidence 50 = 50%R.
Proof.
  split.
  - intros x y Hxy. unfold scaled_confidence.
    assert (Hexp : (exp (- (1 / 10) * (y - 50)) <= exp (- (1 / 10) * (x - 50)))%R)
      by (apply exp_le_mono; lra).
    pose proof (exp_pos (- (1 / 10) * (x - 50))) as Hx.
    pose proof (exp_pos (- (1 / 10) * (y - 50))) as Hy.
    set (a := exp (- (1 / 10) * (x - 50))) in *.
    set (b := exp (- (1 / 10) * (y - 50))) in *.
    unfold Rdiv. apply Rmult_le_compat_l; [lra |].
    apply Rinv_le_contravar; lra.
  - unfold scaled_confidence.
    replace (- (1 / 10) * (50 - 50))%R with 0%R by lra.
    rewrite exp_0. lra.
Qed.

Lemma scaled_confidence_monotone_fixpoint_witness :
  (0 <= 100)%R /\ (scaled_confidence 0 <= scaled_confidence 100)%R /\
  scaled_confidence 50 = 50%R.
Proof.
  split; [lra |]. split.
  - apply (proj1 scaled_confidence_monotone_fixpoint 0%R 100%R). lra.
  - apply (proj2 scaled_confidence_monotone_fixpoint).
Defined.

Lemma get_confidence_score_scaled (self : ModelState) (X : list Q) (c : R) :
  get_confidence_score self X = Ok c ->
  exists raw : Q, c = scaled_confidence (Q2R raw).
Proof.
  unfold get_confidence_score, mbind, pyres_bind. intros H.
  destruct (model self) as [clf |]; [| discriminate].
  destruct (clf_predict_proba clf X); [| discriminate].
  destruct (raw_confidence _) as [raw |]; [| discriminate].
  injection H as <-. eauto.
Qed.

Lemma get_prediction_with_confidence_scaled
  (self : ModelState) (params : gmap string pyval) (label : Z) (c : R) :
  @BaseDiagnosisModel.get_prediction_with_confidence methods self params = Ok (label, c) ->
  exists raw : Q, c = scaled_confidence (Q2R raw).
Proof.
  unfold BaseDiagnosisModel.get_prediction_with_confidence, mbind, pyres_bind.
  simpl. intros H.
  destruct (preprocess_data self params) as [features |]; [| discriminate].
  destruct (predict self features); [| discriminate].
  destruct (get_confidence_score self features) as [c' |] eqn:Hc; [| discriminate].
  destruct (BaseDiagnosisModel.first_label _); [| discriminate].
  injection H as <- <-. eauto using get_confidence_score_scaled.
Qed.

End Calibration.

(** ** The orchestrator *)

Section Orchestrator.

Import Schemas DiagnosisService.

(** [predict_disease], step by step. *)
Lemma predict_disease_unfold (self : ModelState) (params : gmap string pyval)
  (record_id : Z) (db : Session) :
  predict_disease self params record_id db =
  match create_medical_parameters params record_id db with
  | (db1, Raise e) => (db1, Raise e)
  | (db1, Ok _) =>
      match rf_prediction self params with
      | Raise e => (db1, Raise e)
      | Ok pc =>
          match find_disease (fst pc) db1 with
          | None => (db1, Raise "AttributeError")
          | Some d =>
              match create_diagnosis (disease_id d) record_id (snd pc)
                      DEFAULT_MODEL diagnosis_note db1 with
              | (db2, Raise e) => (db2, Raise e)
              | (db2, Ok _) => (db2, Ok (Some d, snd pc))
              end
          end
      end
  end.
Proof.
  unfold predict_disease, mbind, db_bind, lift_res, query_disease.
  destruct (create_medical_parameters params record_id db) as [db1 [mp | e]]; [| reflexivity].
  destruct (rf_prediction self params) as [pc | e]; [| reflexivity].
  destruct (find_disease _ db1) as [d |]; [| reflexivity].
  cbn [attr_disease_id]. cbv beta iota.
  destruct (create_diagnosis _ _ _ _ _ db1) as [db2 [dg | e]]; reflexivity.
Qed.

Lemma create_medical_parameters_ok (params : gmap string pyval) (record_id : Z)
  (db db1 : Session) (mp : MedicalParameter) :
  create_medical_parameters params record_id db = (db1, Ok mp) ->
  medical_parameters db1 = (medical_parameters db ++ [mp])%list /\
  diseases db1 = diseases db /\ diagnoses db1 = diagnoses db.
Proof.
  unfold create_medical_parameters, mbind, db_bind, lift_res, commit_medical_parameter.
  destruct (MedicalParameterCreate_new _ _ _ _ _ _ _ _) as [pd |]; [| discriminate].
  destruct (medical_parameter_checks _); [| discriminate].
  intros H. injection H as <- <-. simpl. auto.
Qed.

Lemma create_medical_parameters_raise (params : gmap string pyval) (record_id : Z)
  (db db1 : Session) (e : exn) :
  create_medical_parameters params record_id db = (db1, Raise e) -> db1 = db.
Proof.
  unfold create_medical_parameters, mbind, db_bind, lift_res, commit_medical_parameter.
  destruct (MedicalParameterCreate_new _ _ _ _ _ _ _ _) as [pd |]; [| congruence].
  destruct (medical_parameter_checks _); [discriminate | congruence].
Qed.

Lemma create_diagnosis_raise (disease_id record_id : Z) (c : R) (mv : string)
  (notes : option string) (db db2 : Session) (e : exn) :
  create_diagnosis disease_id record_id c mv notes db = (db2, Raise e) -> db2 = db.
Proof.
  unfold create_diagnosis, mbind, db_bind, lift_res, commit_diagnosis, DiagnosisCreate_new.
  destruct (Rle_dec 0 c); [| congruence].
  destruct (Rle_dec c 100); [| congruence].
  simpl. destruct (Rle_dec 0 c); [| congruence].
  destruct (Rle_dec c 100); [discriminate | congruence].
Qed.

Lemma create_diagnosis_ok (did record_id : Z) (c : R) (mv : string)
  (notes : option string) (db : Session) :
  (0 <= c <= 100)%R ->
  exists dg,
    create_diagnosis did record_id c mv notes db =
      ({| medical_parameters := medical_parameters db;
          diseases := diseases db;
          diagnoses := diagnoses db ++ [dg] |}, Ok dg) /\
    dg_disease_id dg = did /\ confidence_score dg = c.
Proof.
  intros [H0 H100].
  unfold create_diagnosis, mbind, db_bind, lift_res, commit_diagnosis, DiagnosisCreate_new.
  destruct (Rle_dec 0 c); [| contradiction].
  destruct (Rle_dec c 100); [| contradiction].
  simpl. destruct (Rle_dec 0 c); [| contradiction].
  destruct (Rle_dec c 100); [| contradiction].
  eexists. split; [reflexivity |]. simpl. auto.
Qed.

(** The path on which every step succeeds. *)
Lemma predict_disease_success (self : ModelState) (params : gmap string pyval)
  (record_id : Z) (db db1 : Session) (mp : MedicalParameter) (label : Z) (c : R)
  (d : Disease) :
  create_medical_parameters params record_id db = (db1, Ok mp) ->
  rf_prediction self params = Ok (label, c) ->
  find_disease label db1 = Some d ->
  exists dg,
    predict_disease self params record_id db =
      ({| medical_parameters := medical_parameters db1;
          diseases := diseases db1;
          diagnoses := diagnoses db1 ++ [dg] |}, Ok (Some d, c)) /\
    dg_disease_id dg = disease_id d /\ confidence_score dg = c.
Proof.
  intros Hmp Hpc Hd.
  destruct (get_prediction_with_confidence_scaled _ _ _ _ Hpc) as [raw ->].
  pose proof (scaled_confidence_open_interval (Q2R raw)) as Hb.
  destruct (create_diagnosis_ok (disease_id d) record_id _ DEFAULT_MODEL diagnosis_note db1
              (conj (Rlt_le _ _ (proj1 Hb)) (Rlt_le _ _ (proj2 Hb)))) as (dg & Hdg & H1 & H2).
  exists dg. rewrite predict_disease_unfold, Hmp, Hpc. simpl fst. simpl snd.
  rewrite Hd, Hdg. auto.
Qed.

Lemma seeded_row_persisted :
  exists mp, create_medical_parameters seeded_row 1 empty_db =
               ({| medical_parameters := [mp]; diseases := []; diagnoses := [] |}, Ok mp).
Proof. eexists. reflexivity. Qed.

Lemma seeded_row_prediction :
  rf_prediction sample_model seeded_row =
    Ok (2, RandomForestModel.scaled_confidence (Q2R (900 # 10))).
Proof.
  unfold BaseDiagnosisModel.get_prediction_with_confidence, mbind, pyres_bind.
  cbn [self_preprocess_data self_predict self_get_confidence_score RandomForestModel.methods].
  replace (RandomForestModel.preprocess_data sample_model seeded_row)
    with (Ok [150; 380 # 3; 38; 170; 32; 4 # 5; 70]%Q) by reflexivity.
  reflexivity.
Qed.

End Orchestrator.

(** ** Claims on the orchestrator *)

Section OrchestratorClaims.

Import Schemas DiagnosisService.

(** C5. The calibrated confidence lies strictly between 0 and 100, for
    every raw value; so does every confidence returned by
    [get_confidence_score], and the confidence of every pair returned by
    [predict_disease]. *)
Theorem confidence_strictly_between_0_and_100 :
  (forall raw : R, (0 < RandomForestModel.scaled_confidence raw < 100)%R) /\
  (forall self X c,
     RandomForestModel.get_confidence_score self X = Ok c -> (0 < c < 100)%R) /\
  (forall self params record_id db db' disease c,
     predict_disease self params record_id db = (db', Ok (disease, c)) ->
     (0 < c < 100)%R).
Proof.
  split; [exact scaled_confidence_open_interval |]. split.
  - intros self X c H. destruct (get_confidence_score_scaled _ _ _ H) as [raw ->].
    apply scaled_confidence_open_interval.
  - intros self params record_id db db' disease c H.
    rewrite predict_disease_unfold in H.
    destruct (create_medical_parameters params record_id db) as [db1 [mp | e]];
      [| discriminate].
    destruct (rf_prediction self params) as [[label c'] | e] eqn:Hpc; [| discriminate].
    simpl in H.
    destruct (find_disease label db1) as [d |]; [| discriminate].
    destruct (create_diagnosis _ _ _ _ _ db1) as [db2 [dg | e]]; [| discriminate].
    injection H as _ _ <-.
    destruct (get_prediction_with_confidence_scaled _ _ _ _ Hpc) as [raw ->].
    apply scaled_confidence_open_interval.
Qed.

Lemma seeded_db_persisted :
  exists mp, create_medical_parameters seeded_row 1 seeded_db =
               ({| medical_parameters := [mp]; diseases := diseases seeded_db;
                   diagnoses := [] |}, Ok mp).
Proof. eexists. reflexivity. Qed.

Lemma confidence_strictly_between_0_and_100_witness :
  exists db' disease c,
    predict_disease sample_model seeded_row 1 seeded_db = (db', Ok (disease, c)) /\
    (0 < c < 100)%R.
Proof.
  destruct seeded_db_persisted as [mp Hmp].
  destruct (predict_disease_success sample_model seeded_row 1 seeded_db _ mp 2 _
              {| disease_id := 2; name := "Hypertension"; description := None;
                 icd_10_code := Some "I10"; severity_level := Some "moderate" |}
              Hmp seeded_row_prediction eq_refl) as (dg & Hpd & _).
  eexists _, _, _. split; [exact Hpd |].
  exact (proj2 (proj2 confidence_strictly_between_0_and_100) _ _ _ _ _ _ _ Hpd).
Defined.

(** C6, as the code behaves.  When no disease is registered for the
    predicted label, [predict_disease] raises [AttributeError]; no diagnosis
    is inserted and the medical parameters stored before stay in the
    session. *)
Theorem predict_disease_unknown_label
  (self : ModelState) (params : gmap string pyval) (record_id : Z)
  (db db1 : Session) (mp : MedicalParameter) (label : Z) (c : R) :
  create_medical_parameters params record_id db = (db1, Ok mp) ->
  rf_prediction self params = Ok (label, c) ->
  find_disease label db1 = None ->
  predict_disease self params record_id db = (db1, Raise "AttributeError") /\
  diagnoses db1 = diagnoses db /\
  In mp (medical_parameters db1).
Proof.
  intros Hmp Hpc Hd.
  rewrite predict_disease_unfold, Hmp, Hpc. simpl fst. rewrite Hd.
  destruct (create_medical_parameters_ok _ _ _ _ _ Hmp) as (Hm & _ & Hdg).
  repeat split; auto. rewrite Hm. apply in_or_app. right. left. reflexivity.
Qed.

Lemma predict_disease_unknown_label_witness :
  exists mp db1,
    create_medical_parameters seeded_row 1 empty_db = (db1, Ok mp) /\
    predict_disease sample_model seeded_row 1 empty_db = (db1, Raise "AttributeError") /\
    diagnoses db1 = diagnoses empty_db /\
    In mp (medical_parameters db1).
Proof.
  destruct seeded_row_persisted as [mp Hmp].
  eexists mp, _. split; [exact Hmp |].
  exact (predict_disease_unknown_label sample_model seeded_row 1 empty_db _ mp 2 _
           Hmp seeded_row_prediction eq_refl).
Defined.

(** The claim C6 names the error [UnknownDiseaseLabel]: on a session without
    diseases the request fails with another exception. *)
Lemma predict_disease_not_UnknownDiseaseLabel :
  snd (predict_disease sample_model seeded_row 1 empty_db) = Raise "AttributeError" /\
  snd (predict_disease sample_model seeded_row 1 empty_db) <> Raise "UnknownDiseaseLabel".
Proof.
  destruct seeded_row_persisted as [mp Hmp].
  assert (H : snd (predict_disease sample_model seeded_row 1 empty_db)
              = Raise "AttributeError").
  { rewrite predict_disease_unfold, Hmp, seeded_row_prediction. reflexivity. }
  split; [exact H |]. rewrite H. discriminate.
Qed.

(** C7. Once the medical parameters are stored, a failure of any later step
    of [predict_disease] leaves the session as it was after that insertion:
    the stored record is still there, in particular when the disease lookup
    finds nothing. *)
Theorem medical_parameters_kept_on_failure
  (self : ModelState) (params : gmap string pyval) (record_id : Z)
  (db db1 : Session) (mp : MedicalParameter) :
  create_medical_parameters params record_id db = (db1, Ok mp) ->
  (forall db' e,
     predict_disease self params record_id db = (db', Raise e) ->
     db' = db1 /\ In mp (medical_parameters db')) /\
  (forall pc,
     rf_prediction self params = Ok pc ->
     find_disease (fst pc) db1 = None ->
     exists e, predict_disease self params record_id db = (db1, Raise e) /\
               In mp (medical_parameters db1)).
Proof.
  intros Hmp.
  destruct (create_medical_parameters_ok _ _ _ _ _ Hmp) as (Hm & _ & _).
  assert (Hin : In mp (medical_parameters db1)).
  { rewrite Hm. apply in_or_app. right. left. reflexivity. }
  split.
  - intros db' e H. rewrite predict_disease_unfold, Hmp in H.
    destruct (rf_prediction self params) as [pc | e'].
    + destruct (find_disease (fst pc) db1) as [d |].
      * destruct (create_diagnosis _ _ _ _ _ db1) as [db2 [dg | e'']] eqn:Hcd;
          [discriminate |].
        injection H as <- <-. apply create_diagnosis_raise in Hcd as ->. auto.
      * injection H as <- <-. auto.
    + injection H as <- <-. auto.
  - intros pc Hpc Hd. exists "AttributeError".
    rewrite predict_disease_unfold, Hmp, Hpc, Hd. auto.
Qed.

Lemma medical_parameters_kept_on_failure_witness :
  exists mp db1,
    create_medical_parameters seeded_row 1 empty_db = (db1, Ok mp) /\
    exists e, predict_disease sample_model seeded_row 1 empty_db = (db1, Raise e) /\
              In mp (medical_parameters db1).
Proof.
  destruct seeded_row_persisted as [mp Hmp].
  eexists mp, _. split; [exact Hmp |].
  exact (proj2 (medical_parameters_kept_on_failure sample_model seeded_row 1 empty_db _ mp Hmp)
           _ seeded_row_prediction eq_refl).
Defined.

End OrchestratorClaims.

(** ** Claims on the preprocessing paths *)

Section PreprocessingClaims.

Import BaseDiagnosisModel.

(** C1, at an input on which the two paths differ.  The override
    [RandomForestModel.preprocess_data], which is the one the prediction
    path calls, does not clean: a glucose level of 9000 reaches the
    classifier as 9000, where the base pipeline yields 500. *)
Theorem rf_preprocess_data_skips_clean_data :
  RandomForestModel.preprocess_data sample_model glucose_9000
    = Ok [9000; 0; 0; 0; 0; 0; 0]%Q /\
  BaseDiagnosisModel.preprocess_data sample_model glucose_9000
    = Ok [500; 0; 0; 0; 0; 0; 0]%Q /\
  self_preprocess_data sample_model glucose_9000
    <> BaseDiagnosisModel.preprocess_data sample_model glucose_9000.
Proof.
  assert (H1 : RandomForestModel.preprocess_data sample_model glucose_9000
               = Ok [9000; 0; 0; 0; 0; 0; 0]%Q) by reflexivity.
  assert (H2 : BaseDiagnosisModel.preprocess_data sample_model glucose_9000
               = Ok [500; 0; 0; 0; 0; 0; 0]%Q) by reflexivity.
  split; [exact H1 |]. split; [exact H2 |].
  cbn [self_preprocess_data RandomForestModel.methods]. rewrite H1, H2. discriminate.
Qed.




Lemma validator_confloat_raise (v : pyval) (e : exn) :
  Schemas.optional_confloat_gt0 v = Raise e -> e = "ValidationError".
Proof.
  unfold Schemas.optional_confloat_gt0.
  destruct v; try discriminate; simpl;
    repeat match goal with
    | |- context [match ?x with _ => _ end] => destruct x
    end; congruence.
Qed.

Lemma validator_float_raise (v : pyval) (e : exn) :
  Schemas.optional_float v = Raise e -> e = "ValidationError".
Proof.
  unfold Schemas.optional_float.
  destruct v; try discriminate; simpl;
    repeat match goal with
    | |- context [match ?x with _ => _ end] => destruct x
    end; congruence.
Qed.

Lemma validator_str_raise (v : pyval) (e : exn) :
  Schemas.optional_str v = Raise e -> e = "ValidationError".
Proof. destruct v; simpl; congruence. Qed.

Lemma validator_conint_raise (v : pyval) (e : exn) :
  Schemas.conint_gt0 v = Raise e -> e = "ValidationError".
Proof.
  unfold Schemas.conint_gt0. destruct (float v); [| congruence].
  destruct (_ && _); congruence.
Qed.

Lemma MedicalParameterCreate_new_raise
  (record_id : Z) (g bp st ins b dpf a : pyval) (e : exn) :
  Schemas.MedicalParameterCreate_new record_id g bp st ins b dpf a = Raise e ->
  e = "ValidationError".
Proof.
  unfold Schemas.MedicalParameterCreate_new, mbind, pyres_bind.
  destruct (Schemas.optional_confloat_gt0 g) eqn:E1;
    [| intros H; injection H as <-; eauto using validator_confloat_raise].
  destruct (Schemas.optional_str bp) eqn:E2;
    [| intros H; injection H as <-; eauto using validator_str_raise].
  destruct (Schemas.optional_confloat_gt0 st) eqn:E3;
    [| intros H; injection H as <-; eauto using validator_confloat_raise].
  destruct (Schemas.optional_confloat_gt0 ins) eqn:E4;
    [| intros H; injection H as <-; eauto using validator_confloat_raise].
  destruct (Schemas.optional_confloat_gt0 b) eqn:E5;
    [| intros H; injection H as <-; eauto using validator_confloat_raise].
  destruct (Schemas.optional_float dpf) eqn:E6;
    [| intros H; injection H as <-; eauto using validator_float_raise].
  destruct (Schemas.conint_gt0 a) eqn:E7;
    [discriminate | intros H; injection H as <-; eauto using validator_conint_raise].
Qed.




End PreprocessingClaims.

(** ** Misuse of the pipeline *)

Section Misuse.

Lemma mapM_length {A B} (f : A -> pyres B) (l : list A) (r : list B) :
  mapM f l = Ok r -> length r = length l.
Proof.
  revert r. induction l as [| x l IH]; intros r H; simpl in H.
  - injection H as <-. reflexivity.
  - unfold mbind, pyres_bind in H.
    destruct (f x); [| discriminate].
    destruct (mapM f l) as [ys |]; [| discriminate].
    injection H as <-. simpl. f_equal. apply IH. reflexivity.
Qed.

Lemma feature_row_length (data : gmap string pyval) (features : list Q) :
  RandomForestModel.feature_row data = Ok features -> length features = 7%nat.
Proof.
  unfold RandomForestModel.feature_row, mbind, pyres_bind.
  destruct (match data !! "blood_pressure" with Some _ => _ | None => _ end);
    [| discriminate].
  intros H. apply mapM_length in H. exact H.
Qed.

(** C8, as the code behaves.  Misuse fails with the exceptions of Python and
    of scikit-learn, not with errors of the pipeline's own: predicting with
    no model raises [AttributeError], with an unfitted classifier
    [NotFittedError], on a row of another length [ValueError]; an unfitted
    scaler raises [NotFittedError], and without any scaler preprocessing
    returns the unscaled row.  The row built by preprocessing always has
    seven features. *)
Theorem pipeline_misuse_errors :
  (forall self X, model self = None ->
     RandomForestModel.predict self X = Raise "AttributeError") /\
  (forall self X, model self = Some ClfUnfitted ->
     RandomForestModel.predict self X = Raise "NotFittedError") /\
  (forall self n f g X, model self = Some (ClfFitted n f g) -> length X <> n ->
     RandomForestModel.predict self X = Raise "ValueError") /\
  (forall self data features,
     scaler self = Some ScalerUnfitted ->
     RandomForestModel.feature_row data = Ok features ->
     RandomForestModel.preprocess_data self data = Raise "NotFittedError") /\
  (forall self data, scaler self = None ->
     RandomForestModel.preprocess_data self data = RandomForestModel.feature_row data) /\
  (forall data features,
     RandomForestModel.feature_row data = Ok features -> length features = 7%nat).
Proof.
  repeat split.
  - intros self X H. unfold RandomForestModel.predict. rewrite H. reflexivity.
  - intros self X H. unfold RandomForestModel.predict. rewrite H. reflexivity.
  - intros self n f g X H Hlen. unfold RandomForestModel.predict. rewrite H. simpl.
    destruct (Nat.eqb_spec (length X) n); [contradiction | reflexivity].
  - intros self data features Hs Hrow.
    unfold RandomForestModel.preprocess_data, BaseDiagnosisModel.scale_if_present.
    rewrite Hrow, Hs. reflexivity.
  - intros self data Hs.
    unfold RandomForestModel.preprocess_data, BaseDiagnosisModel.scale_if_present.
    rewrite Hs. destruct (RandomForestModel.feature_row data); reflexivity.
  - exact feature_row_length.
Qed.

Lemma pipeline_misuse_errors_witness :
  RandomForestModel.predict BaseDiagnosisModel.init [1; 2]%Q = Raise "AttributeError" /\
  RandomForestModel.predict sample_model [1; 2]%Q = Raise "ValueError" /\
  RandomForestModel.preprocess_data BaseDiagnosisModel.init glucose_9000
    = RandomForestModel.feature_row glucose_9000.
Proof.
  destruct pipeline_misuse_errors as (H1 & _ & H3 & _ & H5 & _).
  split; [| split].
  - apply H1. reflexivity.
  - apply (H3 sample_model 7%nat (fun _ => 2) (fun _ => [0; 1 # 10; 9 # 10]%Q)).
    + reflexivity.
    + simpl. lia.
  - apply H5. reflexivity.
Defined.

(** The claim C8 names [ModelNotReady], [ShapeMismatch] and
    [MisconfiguredPipeline]: an unfitted classifier, a row of two features
    and an unfitted scaler fail with other exceptions, and a model without
    scaler does not fail at all. *)
Lemma named_misuse_errors_not_raised :
  RandomForestModel.predict {| model := Some ClfUnfitted; scaler := None |}
    [0; 0; 0; 0; 0; 0; 0]%Q <> Raise "ModelNotReady" /\
  RandomForestModel.predict sample_model [1; 2]%Q <> Raise "ShapeMismatch" /\
  RandomForestModel.preprocess_data
    {| model := Some sample_classifier; scaler := Some ScalerUnfitted |} glucose_9000
    <> Raise "MisconfiguredPipeline" /\
  BaseDiagnosisModel.preprocess_data BaseDiagnosisModel.init glucose_9000
    = Ok [500; 0; 0; 0; 0; 0; 0]%Q.
Proof.
  split; [| split; [| split]].
  - change (Raise (A := list Z) "NotFittedError" <> Raise "ModelNotReady"). discriminate.
  - change (Raise (A := list Z) "ValueError" <> Raise "ShapeMismatch"). discriminate.
  - change (Raise (A := list Q) "NotFittedError" <> Raise "MisconfiguredPipeline").
    discriminate.
  - reflexivity.
Qed.

End Misuse.

(** * Further properties of the code *)

(** ** Cleaning, transformation and vectorisation *)

Section BaseModelFacts.

Import BaseDiagnosisModel.

(** X1. The mapping returned by [clean_data] has exactly the seven feature
    names as keys: keys of the input that are no feature are dropped, and
    features absent from the input are present in the output. *)
Theorem clean_data_keys (data cleaned : gmap string pyval) (k : string) :
  clean_data data = Ok cleaned ->
  (is_Some (cleaned !! k) <-> In k feature_names).
Proof.
  intros H.
  destruct (clean_loop_lookup _ data feature_names_NoDup _ _ H) as [Hin Hout].
  rewrite <- list_elem_of_In. split.
  - intros Hk. destruct (decide (k ∈ feature_names)) as [| Hn]; [assumption |].
    rewrite (Hout k Hn), lookup_empty in Hk. destruct Hk as [? Hk]. discriminate.
  - intros Hk. destruct (Hin k Hk) as (v & _ & ->). eauto.
Qed.

Lemma clean_data_keys_witness :
  (is_Some (cleaned_9000 !! "age") <-> In "age" feature_names) /\
  (is_Some (cleaned_9000 !! "patient_name") <-> In "patient_name" feature_names).
Proof.
  split; apply (clean_data_keys glucose_9000 cleaned_9000); reflexivity.
Defined.

Lemma np_clip_cases (x lo hi : Q) :
  (lo <= hi)%Q ->
  ((lo <= x <= hi)%Q -> np_clip x lo hi == x) /\
  ((x < lo)%Q -> np_clip x lo hi == lo) /\
  ((hi < x)%Q -> np_clip x lo hi == hi).
Proof.
  intros Hle. unfold np_clip. repeat split.
  - intros [H1 H2]. rewrite Q.max_l by exact H1. apply Q.min_l. exact H2.
  - intros H. rewrite Q.max_r by (apply Qlt_le_weak; exact H). apply Q.min_l. exact Hle.
  - intros H. apply Q.min_r.
    apply Qle_trans with x; [apply Qlt_le_weak; exact H | apply Q.le_max_l].
Qed.

(** X2. [clean_data] changes a scalar field only when it is out of range: a
    value within the range is kept, a value below it becomes the lower
    bound and a value above it the upper bound. *)
Theorem clean_data_clamps
  (data cleaned : gmap string pyval) (f : string) (lo hi x : Q) :
  clean_data data = Ok cleaned ->
  In (f, (lo, hi)) documented_bounds ->
  float (raw_value data f) = Ok x ->
  exists y,
    cleaned !! f = Some (VFloat y) /\
    ((lo <= x <= hi)%Q -> y == x) /\
    ((x < lo)%Q -> y == lo) /\
    ((hi < x)%Q -> y == hi).
Proof.
  intros Hc Hin Hx.
  destruct (clean_value_scalar f lo hi (raw_value data f) Hin) as (Hcv & Hf & Hle & _).
  destruct (clean_loop_lookup _ data feature_names_NoDup _ _ Hc) as [Hl _].
  destruct (Hl f Hf) as (v & Hv & Hlook).
  rewrite Hcv, Hx in Hv. simpl in Hv. injection Hv as <-.
  exists (np_clip x lo hi). split; [exact Hlook |].
  apply np_clip_cases. exact Hle.
Qed.

Lemma clean_data_clamps_witness :
  exists y,
    cleaned_9000 !! "glucose_level" = Some (VFloat y) /\
    ((0 <= 9000 <= 500)%Q -> y == 9000) /\
    ((9000 < 0)%Q -> y == 0) /\
    ((500 < 9000)%Q -> y == 500).
Proof.
  apply (clean_data_clamps glucose_9000 cleaned_9000 "glucose_level" 0 500 9000).
  - reflexivity.
  - left; reflexivity.
  - reflexivity.
Defined.








End BaseModelFacts.

Section VectorFacts.

Import BaseDiagnosisModel.

Lemma mapM_lookup {A B} (f : A -> pyres B) (l : list A) (r : list B) :
  mapM f l = Ok r ->
  forall i a, l !! i = Some a -> exists b, r !! i = Some b /\ f a = Ok b.
Proof.
  revert r. induction l as [| x l IH]; intros r H i a Hi; [destruct i; discriminate |].
  simpl in H. unfold mbind, pyres_bind in H.
  destruct (f x) as [y |] eqn:Hy; [| discriminate].
  destruct (mapM f l) as [ys |]; [| discriminate].
  injection H as <-. destruct i as [| i]; simpl in *.
  - injection Hi as <-. eauto.
  - eapply IH; eauto.
Qed.


Lemma mapM_raise {A B} (f : A -> pyres B) (l : list A) (e : exn) :
  mapM f l = Raise e -> exists a, In a l /\ f a = Raise e.
Proof.
  induction l as [| x l IH]; simpl; [discriminate |].
  unfold mbind, pyres_bind. destruct (f x) eqn:Hx.
  - destruct (mapM f l); [discriminate |].
    intros H. injection H as <-. destruct IH as (a' & Ha & Hfa); eauto.
  - intros H. injection H as <-. eauto.
Qed.

(** X4. The vector built by [create_feature_vector] has seven entries in
    the order of [feature_names]: entry [i] is the value stored under the
    [i]-th name, read by [float], and 0 when the mapping has no such key. *)
Theorem create_feature_vector_canonical
  (data : gmap string pyval) (features : list Q) :
  create_feature_vector data = Ok features ->
  length features = 7%nat /\
  forall i feature, feature_names !! i = Some feature ->
    exists x, features !! i = Some x /\
              float (dict_get data feature (VInt 0)) = Ok x /\
              (data !! feature = None -> x = 0%Q).
Proof.
  intros H. split.
  - apply mapM_length in H. exact H.
  - intros i feature Hi.
    destruct (mapM_lookup _ _ _ H i feature Hi) as (x & Hx & Hf).
    exists x. repeat split; auto.
    intros Hnone. unfold dict_get in Hf. rewrite Hnone in Hf.
    simpl in Hf. injection Hf as <-. reflexivity.
Qed.

Lemma create_feature_vector_canonical_witness :
  exists features,
    create_feature_vector glucose_9000 = Ok features /\
    length features = 7%nat /\
    forall i feature, feature_names !! i = Some feature ->
      exists x, features !! i = Some x /\
                float (dict_get glucose_9000 feature (VInt 0)) = Ok x /\
                (glucose_9000 !! feature = None -> x = 0%Q).
Proof.
  exists [9000; 0; 0; 0; 0; 0; 0]%Q. split; [reflexivity |].
  apply (create_feature_vector_canonical glucose_9000). reflexivity.
Defined.





End VectorFacts.

(** ** The prediction path *)

Section PredictionPathFacts.

Import BaseDiagnosisModel.

Lemma preprocess_blood_pressure_returns (v : pyval) :
  exists x, RandomForestModel.preprocess_blood_pressure v = Ok x.
Proof.
  unfold RandomForestModel.preprocess_blood_pressure,
    RandomForestModel.preprocess_blood_pressure_try, mbind, pyres_bind.
  destruct v as [| z | q | s]; eauto.
  destruct (unpack_pair_inv s) as [(a & b & S & D & _ & _ & _ & ->) | ->]; eauto.
Qed.


Lemma float_raise_kind (v : pyval) (e : exn) :
  float v = Raise e -> e = "TypeError" \/ e = "ValueError".
Proof.
  destruct v as [| z | q | s]; simpl; try discriminate.
  - intros H; injection H as <-; auto.
  - destruct (parse_float s); [discriminate |]. intros H; injection H as <-; auto.
Qed.

(** The row of features is read from a mapping that agrees with the input
    on the scalar fields and holds a number under "blood_pressure". *)
Lemma feature_row_unfold (data : gmap string pyval) :
  exists processed,
    RandomForestModel.feature_row data =
      mapM (fun feature => float (dict_get processed feature (VInt 0))) feature_names /\
    (forall f, f <> "blood_pressure" -> processed !! f = data !! f) /\
    returns (float (dict_get processed "blood_pressure" (VInt 0))).
Proof.
  unfold RandomForestModel.feature_row.
  destruct (data !! "blood_pressure") as [bp |] eqn:Hbp.
  - destruct (preprocess_blood_pressure_returns bp) as [x ->].
    exists (<["blood_pressure" := VFloat x]> data). repeat split.
    + intros f Hf. apply lookup_insert_ne. congruence.
    + unfold dict_get. rewrite lookup_insert_eq. eexists; reflexivity.
  - exists data. repeat split.
    unfold dict_get. rewrite Hbp. eexists; reflexivity.
Qed.




Example feature_row_none_raises :
  RandomForestModel.feature_row {[ "glucose_level" := VNone ]} = Raise "TypeError" /\
  RandomForestModel.feature_row {[ "glucose_level" := VStr "" ]} = Raise "ValueError".
Proof. split; reflexivity. Qed.



End PredictionPathFacts.

(** ** The service *)

Section ServiceFacts.

Import Schemas DiagnosisService.

Lemma optional_confloat_gt0_ok (v : pyval) (o : option Q) :
  optional_confloat_gt0 v = Ok o -> check_positive o = true.
Proof.
  unfold optional_confloat_gt0, check_positive.
  destruct v as [| z | q | s];
    try (intros H; injection H as <-; reflexivity);
    destruct (float _) as [x |]; try discriminate;
    destruct (Qlt_le_dec 0 x) as [Hx | Hx]; try discriminate;
    intros H; injection H as <-; destruct (Qlt_le_dec 0 x) as [| Hle]; auto;
    exfalso; exact (Qlt_not_le _ _ Hx Hle).
Qed.

Lemma conint_gt0_ok (v : pyval) (a : Z) : conint_gt0 v = Ok a -> 0 < a.
Proof.
  unfold conint_gt0. destruct (float v) as [x |]; [| discriminate].
  destruct (Pos.eqb _ 1 && (0 <? Qnum (Qred x))) eqn:E; [| discriminate].
  intros H. injection H as <-. apply andb_prop in E as [_ E]. lia.
Qed.

Lemma MedicalParameterCreate_new_ok
  (record_id : Z) (g bp st ins b dpf a : pyval) (pd : MedicalParameterCreate) :
  MedicalParameterCreate_new record_id g bp st ins b dpf a = Ok pd ->
  check_positive (mpc_glucose_level pd) = true /\
  check_positive (mpc_skin_thickness pd) = true /\
  check_positive (mpc_insulin_level pd) = true /\
  check_positive (mpc_bmi pd) = true /\
  0 < mpc_age pd /\ mpc_record_id pd = record_id.
Proof.
  unfold MedicalParameterCreate_new, mbind, pyres_bind.
  destruct (optional_confloat_gt0 g) eqn:E1; [| discriminate].
  destruct (optional_str bp) eqn:E2; [| discriminate].
  destruct (optional_confloat_gt0 st) eqn:E3; [| discriminate].
  destruct (optional_confloat_gt0 ins) eqn:E4; [| discriminate].
  destruct (optional_confloat_gt0 b) eqn:E5; [| discriminate].
  destruct (optional_float dpf) eqn:E6; [| discriminate].
  destruct (conint_gt0 a) eqn:E7; [| discriminate].
  intros H. injection H as <-. simpl.
  split; [exact (optional_confloat_gt0_ok _ _ E1) |].
  split; [exact (optional_confloat_gt0_ok _ _ E3) |].
  split; [exact (optional_confloat_gt0_ok _ _ E4) |].
  split; [exact (optional_confloat_gt0_ok _ _ E5) |].
  split; [exact (conint_gt0_ok _ _ E7) | reflexivity].
Qed.

(** X9. Whatever the validation schema accepts satisfies the check
    constraints of the table: [create_medical_parameters] either raises
    [ValidationError] and leaves the session untouched, or appends one row,
    with a positive age, positive measurements and the given record id. *)
Theorem create_medical_parameters_outcomes
  (params : gmap string pyval) (record_id : Z) (db : Session) :
  (forall db' e,
     create_medical_parameters params record_id db = (db', Raise e) ->
     e = "ValidationError" /\ db' = db) /\
  (forall db' mp,
     create_medical_parameters params record_id db = (db', Ok mp) ->
     db' = {| medical_parameters := medical_parameters db ++ [mp];
              diseases := diseases db; diagnoses := diagnoses db |} /\
     mp_record_id mp = record_id /\ 0 < age mp /\
     check_positive (glucose_level mp) = true /\
     check_positive (skin_thickness mp) = true /\
     check_positive (insulin_level mp) = true /\
     check_positive (bmi mp) = true).
Proof.
  unfold create_medical_parameters, mbind, db_bind, lift_res, commit_medical_parameter.
  destruct (MedicalParameterCreate_new _ _ _ _ _ _ _ _) as [pd | e0] eqn:E.
  - destruct (MedicalParameterCreate_new_ok _ _ _ _ _ _ _ _ _ E)
      as (Hg & Hs & Hi & Hb & Ha & Hr).
    unfold medical_parameter_checks. simpl.
    rewrite Hg, Hb. replace (0 <? mpc_age pd) with true by (symmetry; lia). simpl.
    split.
    + intros db' e H. discriminate.
    + intros db' mp H. injection H as <- <-. simpl. repeat split; assumption.
  - split.
    + intros db' e H. injection H as <- <-.
      eauto using MedicalParameterCreate_new_raise.
    + intros db' mp H. discriminate.
Qed.

Lemma create_medical_parameters_outcomes_witness :
  exists db' mp,
    create_medical_parameters seeded_row 1 empty_db = (db', Ok mp) /\
    mp_record_id mp = 1 /\ 0 < age mp.
Proof.
  destruct seeded_row_persisted as [mp Hmp].
  destruct (proj2 (create_medical_parameters_outcomes seeded_row 1 empty_db) _ _ Hmp)
    as (_ & Hr & Ha & _).
  eexists _, mp. split; [exact Hmp |]. split; assumption.
Defined.

(** X10. [create_diagnosis] accepts exactly the confidences between 0 and
    100: it then appends one pending diagnosis carrying the given ids,
    confidence and model version; otherwise it raises [ValidationError] and
    leaves the session untouched. *)
Theorem create_diagnosis_outcomes
  (did record_id : Z) (c : R) (mv : string) (note : option string) (db : Session) :
  ((0 <= c <= 100)%R ->
     create_diagnosis did record_id c mv note db =
       (let dg := {| diagnosis_id := next_id (diagnoses db); dg_record_id := record_id;
                     dg_disease_id := did; confidence_score := c; notes := note;
                     model_version := mv; status := "pending" |} in
        ({| medical_parameters := medical_parameters db; diseases := diseases db;
            diagnoses := diagnoses db ++ [dg] |}, Ok dg))) /\
  (~ (0 <= c <= 100)%R ->
     create_diagnosis did record_id c mv note db = (db, Raise "ValidationError")).
Proof.
  unfold create_diagnosis, mbind, db_bind, lift_res, commit_diagnosis, DiagnosisCreate_new.
  split.
  - intros [H0 H100].
    destruct (Rle_dec 0 c); [| contradiction].
    destruct (Rle_dec c 100); [| contradiction].
    simpl. destruct (Rle_dec 0 c); [| contradiction].
    destruct (Rle_dec c 100); [| contradiction]. reflexivity.
  - intros Hn.
    destruct (Rle_dec 0 c); [| reflexivity].
    destruct (Rle_dec c 100); [| reflexivity].
    exfalso. auto.
Qed.

Lemma create_diagnosis_outcomes_witness :
  (0 <= 50 <= 100)%R /\
  exists dg,
    create_diagnosis 2 1 50 "random_forest" None empty_db =
      ({| medical_parameters := []; diseases := []; diagnoses := [dg] |}, Ok dg) /\
    status dg = "pending".
Proof.
  assert (H : (0 <= 50 <= 100)%R) by lra.
  split; [exact H |].
  eexists. rewrite (proj1 (create_diagnosis_outcomes 2 1 50 "random_forest" None empty_db) H).
  split; reflexivity.
Defined.

End ServiceFacts.

Section OrchestratorFacts.

Import Schemas DiagnosisService.

Lemma create_medical_parameters_raise_kind
  (params : gmap string pyval) (record_id : Z) (db db' : Session) (e : exn) :
  create_medical_parameters params record_id db = (db', Raise e) -> e = "ValidationError".
Proof.
  unfold create_medical_parameters, mbind, db_bind, lift_res, commit_medical_parameter.
  destruct (MedicalParameterCreate_new _ _ _ _ _ _ _ _) as [pd | e0] eqn:E.
  - destruct (MedicalParameterCreate_new_ok _ _ _ _ _ _ _ _ _ E)
      as (Hg & Hs & Hi & Hb & Ha & Hr).
    unfold medical_parameter_checks. simpl.
    rewrite Hg, Hb. replace (0 <? mpc_age pd) with true by (symmetry; lia). simpl.
    discriminate.
  - intros H. injection H as _ <-. eauto using MedicalParameterCreate_new_raise.
Qed.

Lemma feature_row_raise_kind (data : gmap string pyval) (e : exn) :
  RandomForestModel.feature_row data = Raise e -> e = "TypeError" \/ e = "ValueError".
Proof.
  destruct (feature_row_unfold data) as (processed & -> & _ & _).
  intros He. apply mapM_raise in He as (a & _ & Ha). eauto using float_raise_kind.
Qed.

Lemma rf_prediction_raise_kind (self : ModelState) (params : gmap string pyval) (e : exn) :
  rf_prediction self params = Raise e -> In e prediction_errors.
Proof.
  unfold BaseDiagnosisModel.get_prediction_with_confidence, prediction_errors.
  cbn [self_preprocess_data self_predict self_get_confidence_score
       RandomForestModel.methods].
  unfold RandomForestModel.preprocess_data, BaseDiagnosisModel.scale_if_present,
    RandomForestModel.predict, RandomForestModel.get_confidence_score,
    mbind, pyres_bind.
  destruct (RandomForestModel.feature_row params) as [row | e0] eqn:Hrow.
  2:{ intros H. injection H as <-.
      destruct (feature_row_raise_kind _ _ Hrow) as [-> | ->]; simpl; auto. }
  assert (Hscale : forall sc r e1, scaler_transform sc r = Raise e1 ->
                     In e1 ["TypeError"; "ValueError"; "NotFittedError";
                            "AttributeError"; "IndexError"]).
  { intros sc r e1. unfold scaler_transform. destruct sc; [| destruct (_ =? _)%nat];
      try discriminate; intros H; injection H as <-; simpl; auto. }
  destruct (match scaler self with Some sc => scaler_transform sc row | None => Ok row end)
    as [features | e0] eqn:Hsc.
  2:{ intros H. injection H as <-. destruct (scaler self); [eauto | discriminate]. }
  destruct (model self) as [clf |].
  2:{ intros H. injection H as <-. simpl. auto. }
  unfold clf_predict, clf_predict_proba, RandomForestModel.raw_confidence, np_max,
    mbind, pyres_bind.
  destruct clf as [| n dl cd].
  { intros H. injection H as <-. simpl. auto. }
  destruct (length features =? n)%nat.
  2:{ intros H. injection H as <-. simpl. auto. }
  destruct (cd features).
  { intros H. injection H as <-. simpl. auto. }
  simpl. discriminate.
Qed.

(** X11. When [predict_disease] returns, the session has gained exactly one
    row of medical parameters and one pending diagnosis, both for the given
    record; the diagnosis carries the returned confidence and the id of the
    returned disease, which is a registered disease whose id is the
    predicted label; the table of diseases is unchanged. *)
Theorem predict_disease_success_effects
  (self : ModelState) (params : gmap string pyval) (record_id : Z)
  (db db' : Session) (d : option Disease) (c : R) :
  predict_disease self params record_id db = (db', Ok (d, c)) ->
  exists mp dg disease label,
    d = Some disease /\ In disease (diseases db) /\
    rf_prediction self params = Ok (label, c) /\ disease_id disease = label /\
    db' = {| medical_parameters := medical_parameters db ++ [mp];
             diseases := diseases db;
             diagnoses := diagnoses db ++ [dg] |} /\
    mp_record_id mp = record_id /\
    dg_record_id dg = record_id /\ dg_disease_id dg = disease_id disease /\
    confidence_score dg = c /\ status dg = "pending" /\
    model_version dg = DEFAULT_MODEL.
Proof.
  intros H. rewrite predict_disease_unfold in H.
  destruct (create_medical_parameters params record_id db) as [db1 [mp | e]] eqn:Hmp;
    [| discriminate].
  destruct (rf_prediction self params) as [[label c'] | e] eqn:Hpc; [| discriminate].
  simpl fst in H. simpl snd in H.
  destruct (find_disease label db1) as [disease |] eqn:Hd; [| discriminate].
  destruct (get_prediction_with_confidence_scaled _ _ _ _ Hpc) as [raw Hraw].
  pose proof (scaled_confidence_open_interval (Q2R raw)) as Hb. rewrite <- Hraw in Hb.
  destruct (create_diagnosis_ok (disease_id disease) record_id c' DEFAULT_MODEL
              diagnosis_note db1 (conj (Rlt_le _ _ (proj1 Hb)) (Rlt_le _ _ (proj2 Hb))))
    as (dg & Hdg & H1 & H2).
  rewrite Hdg in H. injection H as <- <- <-.
  destruct (create_medical_parameters_ok _ _ _ _ _ Hmp) as (Hm & Hdis & Hdiag).
  unfold find_disease in Hd. apply find_some in Hd as [Hin Hid].
  assert (Hrec : mp_record_id mp = record_id /\ dg_record_id dg = record_id /\
                 status dg = "pending" /\ model_version dg = DEFAULT_MODEL).
  { clear -Hmp Hdg. split.
    - revert Hmp. unfold create_medical_parameters, mbind, db_bind, lift_res,
        commit_medical_parameter.
      destruct (MedicalParameterCreate_new _ _ _ _ _ _ _ _) as [pd |] eqn:E;
        [| discriminate].
      destruct (medical_parameter_checks _); [| discriminate].
      intros H. injection H as _ <-. simpl.
      apply (MedicalParameterCreate_new_ok _ _ _ _ _ _ _ _ _ E).
    - revert Hdg. unfold create_diagnosis, mbind, db_bind, lift_res, commit_diagnosis,
        DiagnosisCreate_new.
      destruct (Rle_dec 0 c'); [| discriminate].
      destruct (Rle_dec c' 100); [| discriminate].
      simpl. destruct (Rle_dec 0 c'); [| discriminate].
      destruct (Rle_dec c' 100); [| discriminate].
      intros H. apply (f_equal snd) in H. simpl in H. injection H as <-.
      simpl. auto. }
  destruct Hrec as (R1 & R2 & R3 & R4).
  exists mp, dg, disease, label.
  rewrite Hdis in Hin. rewrite Hm, Hdis, Hdiag.
  repeat split; auto. lia.
Qed.

Lemma predict_disease_success_effects_witness :
  exists db' mp dg disease label c,
    predict_disease sample_model seeded_row 1 seeded_db = (db', Ok (Some disease, c)) /\
    In disease (diseases seeded_db) /\
    rf_prediction sample_model seeded_row = Ok (label, c) /\ disease_id disease = label /\
    db' = {| medical_parameters := medical_parameters seeded_db ++ [mp];
             diseases := diseases seeded_db;
             diagnoses := diagnoses seeded_db ++ [dg] |} /\
    dg_disease_id dg = disease_id disease /\ confidence_score dg = c.
Proof.
  destruct seeded_db_persisted as [mp0 Hmp].
  destruct (predict_disease_success sample_model seeded_row 1 seeded_db _ mp0 2 _
              {| disease_id := 2; name := "Hypertension"; description := None;
                 icd_10_code := Some "I10"; severity_level := Some "moderate" |}
              Hmp seeded_row_prediction eq_refl) as (dg0 & Hpd & _).
  destruct (predict_disease_success_effects _ _ _ _ _ _ _ Hpd)
    as (mp & dg & disease & label & Hd & Hin & Hpc & Hid & Hdb & _ & _ & Hdd & Hc & _).
  injection Hd as <-.
  eexists _, mp, dg, _, label, _.
  split; [exact Hpd |]. split; [exact Hin |]. split; [exact Hpc |].
  split; [exact Hid |]. split; [exact Hdb |]. split; [exact Hdd | exact Hc].
Defined.

(** X12. When [predict_disease] raises, it never raises [IntegrityError],
    and it has touched neither the diseases nor the diagnoses.  Either the
    validation refused the parameters and nothing at all was stored, or the
    parameters were stored and the failure comes from the prediction or from
    the missing disease. *)
Theorem predict_disease_failure_effects
  (self : ModelState) (params : gmap string pyval) (record_id : Z)
  (db db' : Session) (e : exn) :
  predict_disease self params record_id db = (db', Raise e) ->
  e <> "IntegrityError" /\
  diseases db' = diseases db /\ diagnoses db' = diagnoses db /\
  ((e = "ValidationError" /\ db' = db) \/
   (In e prediction_errors /\
    exists mp, medical_parameters db' = (medical_parameters db ++ [mp])%list)).
Proof.
  intros H. rewrite predict_disease_unfold in H.
  destruct (create_medical_parameters params record_id db) as [db1 [mp | e0]] eqn:Hmp.
  - destruct (create_medical_parameters_ok _ _ _ _ _ Hmp) as (Hm & Hdis & Hdiag).
    assert (Hkind : forall e1, In e1 prediction_errors -> e1 <> "IntegrityError").
    { intros e1 He1 ->. unfold prediction_errors in He1. simpl in He1.
      intuition discriminate. }
    destruct (rf_prediction self params) as [[label c] | e1] eqn:Hpc.
    + simpl fst in H. simpl snd in H.
      destruct (find_disease label db1) as [disease |].
      * destruct (get_prediction_with_confidence_scaled _ _ _ _ Hpc) as [raw Hraw].
        pose proof (scaled_confidence_open_interval (Q2R raw)) as Hb.
        rewrite <- Hraw in Hb.
        destruct (create_diagnosis_ok (disease_id disease) record_id c DEFAULT_MODEL
                    diagnosis_note db1
                    (conj (Rlt_le _ _ (proj1 Hb)) (Rlt_le _ _ (proj2 Hb))))
          as (dg & Hdg & _).
        rewrite Hdg in H. discriminate.
      * injection H as <- <-.
        assert (He : In "AttributeError" prediction_errors) by (simpl; auto).
        repeat split; eauto.
    + injection H as <- <-.
      pose proof (rf_prediction_raise_kind _ _ _ Hpc) as He.
      repeat split; eauto.
  - injection H as <- <-.
    pose proof (create_medical_parameters_raise_kind _ _ _ _ _ Hmp) as ->.
    apply create_medical_parameters_raise in Hmp as ->.
    repeat split; auto.
Qed.

Lemma predict_disease_failure_effects_witness :
  exists db' e,
    predict_disease sample_model seeded_row 1 empty_db = (db', Raise e) /\
    e <> "IntegrityError" /\
    diseases db' = diseases empty_db /\ diagnoses db' = diagnoses empty_db.
Proof.
  destruct seeded_row_persisted as [mp Hmp].
  assert (H : predict_disease sample_model seeded_row 1 empty_db
              = ({| medical_parameters := [mp]; diseases := []; diagnoses := [] |},
                 Raise "AttributeError")).
  { rewrite predict_disease_unfold, Hmp, seeded_row_prediction. reflexivity. }
  destruct (predict_disease_failure_effects _ _ _ _ _ _ H) as (H1 & H2 & H3 & _).
  eexists _, _. repeat split; eauto.
Defined.

End OrchestratorFacts.

(** ** Feature importances *)

Section FeatureImportance.

Import BaseDiagnosisModel.

Lemma fold_left_insert_lookup (l : list (string * Q)) (d : gmap string Q)
  (k : string) (x : Q) :
  fold_left (fun d kv => <[fst kv := snd kv]> d) l d !! k = Some x ->
  In k (map fst l) \/ d !! k = Some x.
Proof.
  revert d. induction l as [| [k' v] l IH]; intros d H; simpl in *; [auto |].
  destruct (IH _ H) as [Hin | Hd]; [auto |].
  destruct (decide (k' = k)) as [-> | Hne]; [auto |].
  rewrite lookup_insert_ne in Hd by exact Hne. auto.
Qed.

Lemma in_fst_zip {A B} (l1 : list A) (l2 : list B) (a : A) :
  In a (map fst (zip l1 l2)) -> In a l1.
Proof.
  revert l2. induction l1 as [| x l1 IH]; intros [| y l2]; simpl; try tauto.
  intros [-> | H]; eauto.
Qed.

(** X13. [get_feature_importance] pairs each feature name with the score at
    the same position: the score at position [i] is found under the [i]-th
    feature name, and every key of the result is a feature name. *)
Theorem get_feature_importance_lookup (importance_scores : list Q) :
  (forall i feature x,
     feature_names !! i = Some feature -> importance_scores !! i = Some x ->
     get_feature_importance importance_scores !! feature = Some x) /\
  (forall k, is_Some (get_feature_importance importance_scores !! k) ->
             In k feature_names).
Proof.
  split.
  - intros i feature x Hf Hx.
    unfold get_feature_importance, feature_names in *.
    destruct importance_scores as [| s0 [| s1 [| s2 [| s3 [| s4 [| s5 [| s6 rest]]]]]]];
      repeat (destruct i as [| i]; simpl in Hf, Hx; try discriminate;
              try (injection Hf as <-; injection Hx as <-; reflexivity)).
  - intros k [x Hk]. unfold get_feature_importance in Hk.
    apply fold_left_insert_lookup in Hk as [Hin | Hk].
    + eapply in_fst_zip. exact Hin.
    + rewrite lookup_empty in Hk. discriminate.
Qed.

Lemma get_feature_importance_lookup_witness :
  get_feature_importance [1 # 2; 1 # 4; 1 # 4]%Q !! "blood_pressure" = Some (1 # 4)%Q.
Proof.
  apply (proj1 (get_feature_importance_lookup [1 # 2; 1 # 4; 1 # 4]%Q) 1%nat);
    reflexivity.
Defined.

End FeatureImportance.

(** ** The diagnosis page *)

Section PageFacts.

Import DiagnosisPage.

Lemma scaled_confidence_ge_iff (k raw : R) :
  (0 < k < 100)%R ->
  ((k <= RandomForestModel.scaled_confidence raw)%R <->
   (50 + 10 * ln (k / (100 - k)) <= raw)%R).
Proof.
  intros [Hk0 Hk100]. unfold RandomForestModel.scaled_confidence.
  set (t := (- (1 / 10) * (raw - 50))%R).
  pose proof (exp_pos t) as Ha.
  assert (Hb : (0 < (100 - k) / k)%R) by (apply Rdiv_lt_0_compat; lra).
  assert (Hln : ln (k / (100 - k)) = (- ln ((100 - k) / k))%R).
  { rewrite <- ln_Rinv by exact Hb. f_equal. field. lra. }
  rewrite Hln.
  assert (H1 : (k <= 100 / (1 + exp t))%R <-> (exp t <= (100 - k) / k)%R).
  { split; intros H.
    - apply (Rmult_le_reg_l k); [exact Hk0 |].
      replace (k * ((100 - k) / k))%R with (100 - k)%R by (field; lra).
      apply (Rmult_le_compat_r (1 + exp t)) in H; [| lra].
      replace (100 / (1 + exp t) * (1 + exp t))%R with 100%R in H by (field; lra).
      lra.
    - apply (Rmult_le_reg_r (1 + exp t)); [lra |].
      replace (100 / (1 + exp t) * (1 + exp t))%R with 100%R by (field; lra).
      apply (Rmult_le_compat_l k) in H; [| lra].
      replace (k * ((100 - k) / k))%R with (100 - k)%R in H by (field; lra).
      lra. }
  assert (H2 : (exp t <= (100 - k) / k)%R <-> (t <= ln ((100 - k) / k))%R).
  { rewrite <- (exp_ln ((100 - k) / k)) at 1 by exact Hb. split; intros H.
    - destruct (Rle_or_lt t (ln ((100 - k) / k))) as [| Hlt]; [assumption |].
      apply exp_increasing in Hlt. lra.
    - apply exp_le_mono. exact H. }
  rewrite H1, H2. unfold t. split; intros H; lra.
Qed.

(** X14. The recommendation shown for a calibrated confidence depends on
    the raw confidence alone: "high" from 50 + 10 ln 9 (about 72) upwards,
    "low" below 50 + 10 ln (7/3) (about 58.5); in particular a raw
    confidence of at most 50 is always reported as low. *)
Theorem recommendation_thresholds (raw : R) :
  (recommend (RandomForestModel.scaled_confidence raw) = HighConfidence <->
     (50 + 10 * ln 9 <= raw)%R) /\
  (recommend (RandomForestModel.scaled_confidence raw) = LowConfidence <->
     (raw < 50 + 10 * ln (7 / 3))%R) /\
  ((raw <= 50)%R ->
     recommend (RandomForestModel.scaled_confidence raw) = LowConfidence).
Proof.
  assert (H90 := scaled_confidence_ge_iff 90 raw ltac:(lra)).
  assert (H70 := scaled_confidence_ge_iff 70 raw ltac:(lra)).
  replace (90 / (100 - 90))%R with 9%R in H90 by field.
  replace (70 / (100 - 70))%R with (7 / 3)%R in H70 by field.
  assert (Hln : (0 < ln (7 / 3))%R).
  { rewrite <- ln_1. apply ln_increasing; lra. }
  assert (Hln9 : (ln (7 / 3) < ln 9)%R) by (apply ln_increasing; lra).
  unfold recommend. set (c := RandomForestModel.scaled_confidence raw) in *.
  destruct (Rle_dec 90 c) as [H | H]; [| destruct (Rle_dec 70 c) as [H' | H']].
  - apply H90 in H.
    split; [split; [intros _; exact H | reflexivity] |].
    split; [split; [discriminate | intros; exfalso; lra] | intros; exfalso; lra].
  - apply H70 in H'. assert (Hn : ~ (50 + 10 * ln 9 <= raw)%R) by tauto.
    split; [split; [discriminate | intros; contradiction] |].
    split; [split; [discriminate | intros; exfalso; lra] | intros; exfalso; lra].
  - assert (Hn : ~ (50 + 10 * ln (7 / 3) <= raw)%R) by tauto.
    split; [split; [discriminate | intros; exfalso; lra] |].
    split; [split; [intros _; lra | reflexivity] | reflexivity].
Qed.

Lemma recommendation_thresholds_witness :
  (40 <= 50)%R /\
  recommend (RandomForestModel.scaled_confidence 40) = LowConfidence.
Proof.
  assert (H : (40 <= 50)%R) by lra.
  split; [exact H |].
  exact (proj2 (proj2 (recommendation_thresholds 40)) H).
Defined.

End PageFacts.

Section FormFacts.

Import Schemas DiagnosisService DiagnosisPage.

Lemma Qred_inject_Z (z : Z) : Qred (inject_Z z) = inject_Z z.
Proof.
  unfold Qred, inject_Z.
  pose proof (Z.ggcd_gcd z 1) as Hg.
  pose proof (Z.ggcd_correct_divisors z 1) as Hd.
  destruct (Z.ggcd z 1) as [g [aa bb]]. simpl in *. destruct Hd as [Ha Hb].
  rewrite Z.gcd_1_r in Hg. subst g.
  rewrite Z.mul_1_l in Ha, Hb. subst aa bb. reflexivity.
Qed.

Lemma truthy_float_positive (q : Q) :
  (0 <= q)%Q -> truthy_float q = true -> (0 < q)%Q.
Proof.
  unfold truthy_float. intros H0 Ht.
  destruct (Qeq_bool q 0) eqn:E; [discriminate |].
  apply Qeq_bool_neq in E. apply Qle_lt_or_eq in H0 as [| Heq]; [assumption |].
  exfalso. apply E. symmetry. exact Heq.
Qed.

Lemma optional_confloat_gt0_positive (q : Q) :
  (0 < q)%Q -> optional_confloat_gt0 (VFloat q) = Ok (Some q).
Proof.
  intros H. unfold optional_confloat_gt0. simpl.
  destruct (Qlt_le_dec 0 q) as [| Hle]; [reflexivity |].
  exfalso. exact (Qlt_not_le _ _ H Hle).
Qed.

Lemma check_positive_positive (q : Q) : (0 < q)%Q -> check_positive (Some q) = true.
Proof.
  intros H. unfold check_positive.
  destruct (Qlt_le_dec 0 q) as [| Hle]; [reflexivity |].
  exfalso. exact (Qlt_not_le _ _ H Hle).
Qed.

Lemma conint_gt0_positive (a : Z) : 0 < a -> conint_gt0 (VInt a) = Ok a.
Proof.
  intros H. unfold conint_gt0. simpl float. cbv iota beta zeta.
  rewrite Qred_inject_Z. simpl.
  replace (0 <? a) with true by (symmetry; lia). reflexivity.
Qed.

(** X15. A dictionary produced by the form is always accepted by the step
    that stores the raw parameters: the widgets keep the values in range and
    the form refuses zeros, so the validation passes and one row holding
    the submitted values is appended.  The form yields nothing when it was
    not submitted or when one of the six numbers is zero. *)
Theorem render_diagnosis_form_accepted
  (glucose : Q) (systolic diastolic : Z) (skin insulin body_mass pedigree : Q)
  (years : Z) (submitted : bool) :
  widget_ranges glucose systolic diastolic skin insulin body_mass pedigree years ->
  (forall params,
     render_diagnosis_form glucose systolic diastolic skin insulin body_mass pedigree
       years submitted = Some params ->
     forall record_id db, exists mp,
       create_medical_parameters params record_id db =
         ({| medical_parameters := medical_parameters db ++ [mp];
             diseases := diseases db; diagnoses := diagnoses db |}, Ok mp) /\
       mp_record_id mp = record_id /\
       glucose_level mp = Some glucose /\
       blood_pressure mp = Some (pretty systolic +:+ "/" +:+ pretty diastolic) /\
       skin_thickness mp = Some skin /\ insulin_level mp = Some insulin /\
       bmi mp = Some body_mass /\ diabetes_pedigree_function mp = Some pedigree /\
       age mp = years) /\
  (submitted = false \/ glucose == 0 \/ skin == 0 \/ insulin == 0 \/
   body_mass == 0 \/ pedigree == 0 \/ years = 0 ->
   render_diagnosis_form glucose systolic diastolic skin insulin body_mass pedigree
     years submitted = None).
Proof.
  intros (Hg & Hsy & Hdi & Hsk & Hin & Hb & Hp & Hy).
  unfold render_diagnosis_form. split.
  - intros params H.
    destruct submitted; [| discriminate].
    destruct (truthy_float glucose) eqn:Tg; [| discriminate].
    destruct (truthy_float skin) eqn:Ts; [| discriminate].
    destruct (truthy_float insulin) eqn:Ti; [| discriminate].
    destruct (truthy_float body_mass) eqn:Tb; [| discriminate].
    destruct (truthy_float pedigree) eqn:Tp; [| discriminate].
    destruct (truthy_int years) eqn:Ty; [| discriminate].
    simpl in H. injection H as <-.
    intros record_id db.
    unfold create_medical_parameters, MedicalParameterCreate_new, params_get.
    replace (dict_get _ "glucose_level" VNone) with (VFloat glucose) by reflexivity.
    replace (dict_get _ "blood_pressure" VNone)
      with (VStr (pretty systolic +:+ "/" +:+ pretty diastolic)) by reflexivity.
    replace (dict_get _ "skin_thickness" VNone) with (VFloat skin) by reflexivity.
    replace (dict_get _ "insulin_level" VNone) with (VFloat insulin) by reflexivity.
    replace (dict_get _ "bmi" VNone) with (VFloat body_mass) by reflexivity.
    replace (dict_get _ "diabetes_pedigree_function" VNone)
      with (VFloat pedigree) by reflexivity.
    replace (dict_get _ "age" VNone) with (VInt years) by reflexivity.
    assert (Py : 0 < years).
    { unfold truthy_int in Ty. apply negb_true_iff in Ty. apply Z.eqb_neq in Ty. lia. }
    rewrite !optional_confloat_gt0_positive
      by (apply truthy_float_positive; [tauto | assumption]).
    rewrite (conint_gt0_positive _ Py).
    unfold mbind, db_bind, lift_res, pyres_bind, commit_medical_parameter,
      medical_parameter_checks.
    cbn [optional_str optional_float float].
    cbn [glucose_level bmi age mpc_glucose_level mpc_bmi mpc_age].
    rewrite !check_positive_positive
      by (apply truthy_float_positive; [tauto | assumption]).
    replace (0 <? years) with true by (symmetry; lia). simpl.
    eexists. split; [reflexivity |]. simpl. auto 10.
  - intros H. destruct submitted; [| reflexivity].
    assert (Hz : forall q, q == 0 -> truthy_float q = false).
    { intros q Hq. unfold truthy_float. apply Qeq_bool_iff in Hq. rewrite Hq. reflexivity. }
    destruct H as [H | [H | [H | [H | [H | [H | H]]]]]]; [discriminate | ..];
      try (rewrite (Hz _ H)); try (subst years; simpl truthy_int);
      rewrite ?andb_false_r; reflexivity.
Qed.

Lemma render_diagnosis_form_accepted_witness :
  exists params mp,
    render_diagnosis_form 150 150 115 38 170 32 (4 # 5) 70 true = Some params /\
    create_medical_parameters params 1 empty_db =
      ({| medical_parameters := [mp]; diseases := []; diagnoses := [] |}, Ok mp) /\
    age mp = 70 /\ blood_pressure mp = Some "150/115".
Proof.
  assert (Hw : widget_ranges 150 150 115 38 170 32 (4 # 5) 70).
  { unfold widget_ranges, Qle. simpl. lia. }
  destruct (proj1 (render_diagnosis_form_accepted 150 150 115 38 170 32 (4 # 5) 70 true Hw)
              _ eq_refl 1 empty_db) as (mp & H & _ & _ & Hbp & _ & _ & _ & _ & Ha).
  eexists _, mp. split; [reflexivity |]. split; [exact H |]. split; [exact Ha | exact Hbp].
Defined.

End FormFacts.

Section FormTextFacts.

Import BaseDiagnosisModel.

Lemma all_from_spec (p : Z -> bool) (n : nat) :
  forall lo, all_from p lo n = true ->
  forall z, lo <= z < lo + Z.of_nat n -> p z = true.
Proof.
  induction n as [| n IH]; intros lo H z Hz; [lia |].
  simpl in H. apply andb_prop in H as [Hlo Hrest].
  destruct (Z.eq_dec z lo) as [-> | Hne]; [exact Hlo |].
  apply (IH (lo + 1) Hrest). lia.
Qed.

Lemma int_text_range : all_from int_text_ok 40 161 = true.
Proof. vm_compute. reflexivity. Qed.

Lemma int_text (z : Z) :
  40 <= z <= 200 ->
  float (VStr (pretty z)) = Ok (inject_Z z) /\
  float (VStr (str_float (inject_Z z))) = Ok (inject_Z z) /\
  has_slash (pretty z) = false /\
  has_slash (str_float (inject_Z z)) = false.
Proof.
  intros Hz.
  pose proof (all_from_spec int_text_ok 161 40 int_text_range z ltac:(lia)) as H.
  unfold int_text_ok in H. unfold float.
  destruct (parse_float (pretty z)) as [[n d] |]; [| discriminate].
  destruct (parse_float (str_float (inject_Z z))) as [[n' d'] |]; [| discriminate].
  cbn [Qnum Qden] in H.
  repeat (apply andb_prop in H as [H ?]).
  repeat match goal with
  | H : (_ =? _) = true |- _ => apply Z.eqb_eq in H
  | H : Pos.eqb _ _ = true |- _ => apply Pos.eqb_eq in H
  | H : negb _ = true |- _ => apply negb_true_iff in H
  end.
  subst. repeat split; try reflexivity; assumption.
Qed.

Lemma rev_app_rev_app (a c d : string) :
  String.rev_app (String.rev_app a c) d = String.rev_app c (a +:+ d).
Proof.
  revert c d. induction a as [| x a IH]; intros c d; [reflexivity |].
  change (String.rev_app (String.rev_app a (String x c)) d
          = String.rev_app c (String x (a +:+ d))).
  rewrite IH. reflexivity.
Qed.

Lemma string_app_nil_r (a : string) : a +:+ "" = a.
Proof.
  induction a as [| x a IH]; [reflexivity |].
  change (String x (a +:+ "") = String x a). f_equal. exact IH.
Qed.

Lemma split_on_prefix (sep : ascii) (a rest cur : string) :
  contains_char sep a = false ->
  split_on sep cur (a +:+ rest) = split_on sep (String.rev_app a cur) rest.
Proof.
  revert cur. induction a as [| x a IH]; intros cur H; [reflexivity |].
  change (contains_char sep (String x a))
    with (Ascii.eqb x sep || contains_char sep a) in H.
  apply orb_false_iff in H as [Hx Ha].
  change (split_on sep cur (String x (a +:+ rest))
          = split_on sep (String.rev_app a (String x cur)) rest).
  cbn [split_on]. rewrite Hx. apply IH. exact Ha.
Qed.

Lemma split_slash_pair (a b : string) :
  has_slash a = false -> has_slash b = false ->
  split_slash (a +:+ "/" +:+ b) = [a; b].
Proof.
  unfold split_slash, has_slash. intros Ha Hb.
  rewrite (split_on_prefix _ a _ "" Ha).
  change (split_on "/" (String.rev_app a "") ("/" +:+ b))
    with (String.rev (String.rev_app a "") :: split_on "/" "" b).
  rewrite <- (string_app_nil_r b) at 1.
  rewrite (split_on_prefix _ b "" "" Hb).
  change (split_on "/" (String.rev_app b "") "") with [String.rev (String.rev_app b "")].
  unfold String.rev. rewrite !rev_app_rev_app.
  change (String.rev_app "" ?s) with s.
  rewrite !string_app_nil_r. reflexivity.
Qed.

Lemma unpack_pair_ints (s d : Z) :
  40 <= s <= 200 -> 40 <= d <= 200 ->
  unpack_pair (pretty s +:+ "/" +:+ pretty d) = Ok (inject_Z s, inject_Z d) /\
  unpack_pair (str_float (inject_Z s) +:+ "/" +:+ str_float (inject_Z d))
    = Ok (inject_Z s, inject_Z d) /\
  has_slash (pretty s +:+ "/" +:+ pretty d) = true /\
  has_slash (str_float (inject_Z s) +:+ "/" +:+ str_float (inject_Z d)) = true.
Proof.
  intros Hs Hd.
  destruct (int_text s Hs) as (S1 & S2 & S3 & S4).
  destruct (int_text d Hd) as (D1 & D2 & D3 & D4).
  pose proof (split_slash_pair _ _ S3 D3) as P1.
  pose proof (split_slash_pair _ _ S4 D4) as P2.
  repeat split.
  - exact (unpack_pair_well_formed _ _ _ _ _ P1 S1 D1).
  - exact (unpack_pair_well_formed _ _ _ _ _ P2 S2 D2).
  - exact (split_slash_two_has_slash _ _ _ P1).
  - exact (split_slash_two_has_slash _ _ _ P2).
Qed.

Lemma np_clip_inject_Z (z lo hi : Z) :
  lo <= z <= hi -> np_clip (inject_Z z) (inject_Z lo) (inject_Z hi) = inject_Z z.
Proof.
  intros [H1 H2]. unfold np_clip, Qmin, Qmax, GenericMinMax.gmin, GenericMinMax.gmax,
    Qcompare, inject_Z. simpl. rewrite !Z.mul_1_r.
  assert (E : match z ?= lo with Lt => lo # 1 | _ => z # 1 end = z # 1).
  { destruct (z ?= lo) eqn:E1; try reflexivity. rewrite Z.compare_lt_iff in E1. exfalso. lia. }
  rewrite E. simpl. rewrite Z.mul_1_r.
  destruct (z ?= hi) eqn:E2; try reflexivity.
  rewrite Z.compare_gt_iff in E2. exfalso. lia.
Qed.

End FormTextFacts.

Section FormPipelineFacts.

Import BaseDiagnosisModel DiagnosisPage.

Lemma render_diagnosis_form_some
  (glucose : Q) (systolic diastolic : Z) (skin insulin body_mass pedigree : Q)
  (years : Z) (submitted : bool) (params : gmap string pyval) :
  render_diagnosis_form glucose systolic diastolic skin insulin body_mass pedigree
    years submitted = Some params ->
  params =
    <["glucose_level" := VFloat glucose]>
    (<["blood_pressure" := VStr (pretty systolic +:+ "/" +:+ pretty diastolic)]>
    (<["skin_thickness" := VFloat skin]>
    (<["insulin_level" := VFloat insulin]>
    (<["bmi" := VFloat body_mass]>
    (<["diabetes_pedigree_function" := VFloat pedigree]>
    (<["age" := VInt years]> ∅)))))).
Proof.
  unfold render_diagnosis_form.
  destruct submitted; [| discriminate].
  destruct (_ && _); [| discriminate].
  intros H. injection H as <-. reflexivity.
Qed.

(** The row read by the prediction path from a dictionary of the form. *)
Lemma form_feature_row
  (glucose : Q) (systolic diastolic : Z) (skin insulin body_mass pedigree : Q)
  (years : Z) (submitted : bool) (params : gmap string pyval) :
  widget_ranges glucose systolic diastolic skin insulin body_mass pedigree years ->
  render_diagnosis_form glucose systolic diastolic skin insulin body_mass pedigree
    years submitted = Some params ->
  RandomForestModel.feature_row params =
    Ok [glucose; mean_arterial_pressure (inject_Z systolic) (inject_Z diastolic);
        skin; insulin; body_mass; pedigree; inject_Z years].
Proof.
  intros (_ & Hsy & Hdi & _) H. apply render_diagnosis_form_some in H. subst params.
  destruct (unpack_pair_ints systolic diastolic ltac:(lia) ltac:(lia)) as (U & _ & _ & _).
  unfold RandomForestModel.feature_row.
  match goal with
  | |- context [?m !! "blood_pressure"] =>
      replace (m !! "blood_pressure")
        with (Some (VStr (pretty systolic +:+ "/" +:+ pretty diastolic))) by reflexivity
  end.
  unfold RandomForestModel.preprocess_blood_pressure,
    RandomForestModel.preprocess_blood_pressure_try, mbind, pyres_bind.
  rewrite U. cbn [fst snd].
  set (m := mean_arterial_pressure _ _).
  unfold feature_names. cbn [mapM]. unfold mbind, pyres_bind.
  replace (dict_get _ "glucose_level" (VInt 0)) with (VFloat glucose) by reflexivity.
  replace (dict_get _ "blood_pressure" (VInt 0)) with (VFloat m) by reflexivity.
  replace (dict_get _ "skin_thickness" (VInt 0)) with (VFloat skin) by reflexivity.
  replace (dict_get _ "insulin_level" (VInt 0)) with (VFloat insulin) by reflexivity.
  replace (dict_get _ "bmi" (VInt 0)) with (VFloat body_mass) by reflexivity.
  replace (dict_get _ "diabetes_pedigree_function" (VInt 0))
    with (VFloat pedigree) by reflexivity.
  replace (dict_get _ "age" (VInt 0)) with (VInt years) by reflexivity.
  reflexivity.
Qed.

(** The row built by the base pipeline from the same dictionary. *)
Lemma form_base_row
  (glucose : Q) (systolic diastolic : Z) (skin insulin body_mass pedigree : Q)
  (years : Z) (submitted : bool) (params : gmap string pyval) :
  widget_ranges glucose systolic diastolic skin insulin body_mass pedigree years ->
  render_diagnosis_form glucose systolic diastolic skin insulin body_mass pedigree
    years submitted = Some params ->
  (cleaned_data ← clean_data params;
   transformed_data ← transform_data cleaned_data;
   create_feature_vector transformed_data) =
    Ok [np_clip glucose 0 500;
        mean_arterial_pressure (inject_Z systolic) (inject_Z diastolic);
        np_clip skin 0 100; np_clip insulin 0 1000; np_clip body_mass 0 100;
        np_clip pedigree 0 10; np_clip (inject_Z years) 0 120].
Proof.
  intros (_ & Hsy & Hdi & _) H. apply render_diagnosis_form_some in H. subst params.
  destruct (unpack_pair_ints systolic diastolic ltac:(lia) ltac:(lia))
    as (U1 & U2 & S1 & S2).
  unfold clean_data, feature_names. cbn [clean_loop]. unfold mbind at 1, pyres_bind at 1.
  replace (raw_value _ "glucose_level") with (VFloat glucose) by reflexivity.
  replace (raw_value _ "blood_pressure")
    with (VStr (pretty systolic +:+ "/" +:+ pretty diastolic)).
  2:{ unfold raw_value.
      match goal with
      | |- _ = if is_none_or_empty ?v then _ else _ =>
          replace v with (VStr (pretty systolic +:+ "/" +:+ pretty diastolic))
            by reflexivity
      end.
      unfold is_none_or_empty.
      destruct (String.eqb_spec (pretty systolic +:+ "/" +:+ pretty diastolic) "")
        as [E |]; [| reflexivity].
      rewrite E in S1. discriminate. }
  replace (raw_value _ "skin_thickness") with (VFloat skin) by reflexivity.
  replace (raw_value _ "insulin_level") with (VFloat insulin) by reflexivity.
  replace (raw_value _ "bmi") with (VFloat body_mass) by reflexivity.
  replace (raw_value _ "diabetes_pedigree_function") with (VFloat pedigree) by reflexivity.
  replace (raw_value _ "age") with (VInt years) by reflexivity.
  change (clean_value "glucose_level" (VFloat glucose))
    with (Ok (A := pyval) (VFloat (np_clip glucose 0 500))).
  change (clean_value "skin_thickness" (VFloat skin))
    with (Ok (A := pyval) (VFloat (np_clip skin 0 100))).
  change (clean_value "insulin_level" (VFloat insulin))
    with (Ok (A := pyval) (VFloat (np_clip insulin 0 1000))).
  change (clean_value "bmi" (VFloat body_mass))
    with (Ok (A := pyval) (VFloat (np_clip body_mass 0 100))).
  change (clean_value "diabetes_pedigree_function" (VFloat pedigree))
    with (Ok (A := pyval) (VFloat (np_clip pedigree 0 10))).
  change (clean_value "age" (VInt years))
    with (Ok (A := pyval) (VFloat (np_clip (inject_Z years) 0 120))).
  change (clean_value "blood_pressure"
            (VStr (pretty systolic +:+ "/" +:+ pretty diastolic)))
    with (if has_slash (pretty systolic +:+ "/" +:+ pretty diastolic) then
            p ← unpack_pair (pretty systolic +:+ "/" +:+ pretty diastolic);
            Ok (VStr (str_float (np_clip (fst p) 70 200) +:+ "/" +:+
                      str_float (np_clip (snd p) 40 130)))
          else Ok (VStr (pretty systolic +:+ "/" +:+ pretty diastolic))).
  rewrite S1, U1. unfold mbind, pyres_bind. cbn [fst snd].
  replace (np_clip (inject_Z systolic) 70 200) with (inject_Z systolic)
    by (symmetry; apply (np_clip_inject_Z systolic 70 200); lia).
  replace (np_clip (inject_Z diastolic) 40 130) with (inject_Z diastolic)
    by (symmetry; apply (np_clip_inject_Z diastolic 40 130); lia).
  set (bp := str_float (inject_Z systolic) +:+ "/" +:+ str_float (inject_Z diastolic)) in *.
  unfold transform_data.
  match goal with
  | |- context [?m !! "blood_pressure"] =>
      replace (m !! "blood_pressure") with (Some (VStr bp)) by reflexivity
  end.
  rewrite S2, U2. unfold mbind, pyres_bind. cbn [fst snd].
  set (m := mean_arterial_pressure _ _).
  unfold create_feature_vector, feature_names. cbn [mapM]. unfold mbind, pyres_bind.
  replace (dict_get _ "glucose_level" (VInt 0))
    with (VFloat (np_clip glucose 0 500)) by reflexivity.
  replace (dict_get _ "blood_pressure" (VInt 0)) with (VFloat m) by reflexivity.
  replace (dict_get _ "skin_thickness" (VInt 0))
    with (VFloat (np_clip skin 0 100)) by reflexivity.
  replace (dict_get _ "insulin_level" (VInt 0))
    with (VFloat (np_clip insulin 0 1000)) by reflexivity.
  replace (dict_get _ "bmi" (VInt 0))
    with (VFloat (np_clip body_mass 0 100)) by reflexivity.
  replace (dict_get _ "diabetes_pedigree_function" (VInt 0))
    with (VFloat (np_clip pedigree 0 10)) by reflexivity.
  replace (dict_get _ "age" (VInt 0))
    with (VFloat (np_clip (inject_Z years) 0 120)) by reflexivity.
  reflexivity.
Qed.

End FormPipelineFacts.

Section FormClaims.

Import BaseDiagnosisModel DiagnosisPage.

Lemma sample_widget_ranges : widget_ranges 150 150 115 38 170 32 (4 # 5) 70.
Proof. unfold widget_ranges, Qle. simpl. lia. Qed.

Lemma rf_prediction_returns_if
  (decide_label : list Q -> Z) (class_distribution : list Q -> list Q)
  (mean_ scale_ : list Q) (params : gmap string pyval) (features : list Q) :
  length mean_ = 7%nat -> length scale_ = 7%nat ->
  (forall X, class_distribution X <> []) ->
  RandomForestModel.feature_row params = Ok features ->
  returns (rf_prediction
             {| model := Some (ClfFitted 7 decide_label class_distribution);
                scaler := Some (ScalerFitted mean_ scale_) |} params).
Proof.
  intros Hm Hs Hne Hrow.
  unfold BaseDiagnosisModel.get_prediction_with_confidence.
  cbn [self_preprocess_data self_predict self_get_confidence_score
       RandomForestModel.methods].
  unfold RandomForestModel.preprocess_data, scale_if_present,
    RandomForestModel.predict, RandomForestModel.get_confidence_score,
    mbind, pyres_bind. simpl scaler. simpl model. rewrite Hrow.
  pose proof (feature_row_length _ _ Hrow) as Hlen.
  unfold scaler_transform. rewrite Hlen, Hm. simpl Nat.eqb. cbv iota.
  set (row := zip_with standardize features (zip mean_ scale_)).
  assert (Hrl : length row = 7%nat).
  { unfold row. rewrite length_zip_with, length_zip_with. lia. }
  unfold clf_predict, clf_predict_proba. rewrite Hrl. simpl Nat.eqb. cbv iota.
  specialize (Hne row). simpl.
  destruct (class_distribution row) as [| p ps]; [contradiction |].
  simpl. eexists; reflexivity.
Qed.

(** X16. A dictionary produced by the form is always read by the prediction
    path: the row of features holds the submitted numbers, with the mean
    arterial pressure of the two integers at the second position, and a
    model fitted on seven features returns a prediction for it. *)
Theorem form_prediction_returns
  (glucose : Q) (systolic diastolic : Z) (skin insulin body_mass pedigree : Q)
  (years : Z) (submitted : bool) (params : gmap string pyval) :
  widget_ranges glucose systolic diastolic skin insulin body_mass pedigree years ->
  render_diagnosis_form glucose systolic diastolic skin insulin body_mass pedigree
    years submitted = Some params ->
  RandomForestModel.feature_row params =
    Ok [glucose; mean_arterial_pressure (inject_Z systolic) (inject_Z diastolic);
        skin; insulin; body_mass; pedigree; inject_Z years] /\
  forall decide_label class_distribution mean_ scale_,
    length mean_ = 7%nat -> length scale_ = 7%nat ->
    (forall X, class_distribution X <> []) ->
    returns (rf_prediction
               {| model := Some (ClfFitted 7 decide_label class_distribution);
                  scaler := Some (ScalerFitted mean_ scale_) |} params).
Proof.
  intros Hw Hf. pose proof (form_feature_row _ _ _ _ _ _ _ _ _ _ Hw Hf) as Hrow.
  split; [exact Hrow |].
  intros dl cd m s Hm Hs Hne. eapply rf_prediction_returns_if; eauto.
Qed.

Lemma form_prediction_returns_witness :
  exists params,
    render_diagnosis_form 150 150 115 38 170 32 (4 # 5) 70 true = Some params /\
    RandomForestModel.feature_row params =
      Ok [150; mean_arterial_pressure (inject_Z 150) (inject_Z 115);
          38; 170; 32; 4 # 5; inject_Z 70]%Q /\
    returns (rf_prediction sample_model params).
Proof.
  eexists. split; [reflexivity |].
  destruct (form_prediction_returns 150 150 115 38 170 32 (4 # 5) 70 true _
              sample_widget_ranges eq_refl) as [H1 H2].
  split; [exact H1 |].
  apply (H2 (fun _ => 2) (fun _ => [0; 1 # 10; 9 # 10]%Q)
            [0; 0; 0; 0; 0; 0; 0]%Q [1; 1; 1; 1; 1; 1; 1]%Q);
    [reflexivity | reflexivity | discriminate].
Defined.

Lemma standardize_Qeq (x y : Q) (ms : Q * Q) :
  x == y -> standardize x ms = standardize y ms.
Proof.
  intros H. unfold standardize. apply Qred_complete. rewrite H. reflexivity.
Qed.

Lemma zip_with_standardize_Qeq (r r' : list Q) :
  Forall2 Qeq r r' ->
  forall l, zip_with standardize r l = zip_with standardize r' l.
Proof.
  induction 1 as [| x y r r' Hxy _ IH]; intros l; [reflexivity |].
  destruct l as [| ms l]; [reflexivity |]. simpl.
  rewrite (standardize_Qeq x y ms Hxy), IH. reflexivity.
Qed.

(** X17. On the dictionaries produced by the form, whose values are within
    the ranges of the widgets, the override of [preprocess_data] used for
    prediction and the base pipeline with cleaning compute the same
    features, the scaler being absent or fitted on seven features. *)
Theorem form_pipelines_agree
  (glucose : Q) (systolic diastolic : Z) (skin insulin body_mass pedigree : Q)
  (years : Z) (submitted : bool) (params : gmap string pyval) (self : ModelState) :
  widget_ranges glucose systolic diastolic skin insulin body_mass pedigree years ->
  render_diagnosis_form glucose systolic diastolic skin insulin body_mass pedigree
    years submitted = Some params ->
  scaler self = None \/
    (exists mean_ scale_, scaler self = Some (ScalerFitted mean_ scale_) /\
                          length mean_ = 7%nat) ->
  exists xs ys,
    BaseDiagnosisModel.preprocess_data self params = Ok xs /\
    RandomForestModel.preprocess_data self params = Ok ys /\
    Forall2 Qeq xs ys.
Proof.
  intros Hw Hf Hsc.
  pose proof (form_feature_row _ _ _ _ _ _ _ _ _ _ Hw Hf) as Hrow.
  pose proof (form_base_row _ _ _ _ _ _ _ _ _ _ Hw Hf) as Hbase.
  destruct Hw as (Hg & Hsy & Hdi & Hsk & Hin & Hb & Hp & Hy).
  assert (Hrows : Forall2 Qeq
            [np_clip glucose 0 500;
             mean_arterial_pressure (inject_Z systolic) (inject_Z diastolic);
             np_clip skin 0 100; np_clip insulin 0 1000; np_clip body_mass 0 100;
             np_clip pedigree 0 10; np_clip (inject_Z years) 0 120]
            [glucose; mean_arterial_pressure (inject_Z systolic) (inject_Z diastolic);
             skin; insulin; body_mass; pedigree; inject_Z years]).
  { repeat constructor; try reflexivity;
      try (apply np_clip_cases; [discriminate | assumption]).
    change (np_clip (inject_Z years) (inject_Z 0) (inject_Z 120) == inject_Z years).
    rewrite (np_clip_inject_Z years 0 120) by lia. reflexivity. }
  unfold BaseDiagnosisModel.preprocess_data, RandomForestModel.preprocess_data.
  unfold mbind, pyres_bind in *.
  destruct (clean_data params) as [cleaned |]; [| discriminate].
  destruct (transform_data cleaned) as [transformed |]; [| discriminate].
  rewrite Hbase, Hrow. unfold scale_if_present.
  destruct Hsc as [-> | (m & s & -> & Hm)].
  - eexists _, _. repeat split. exact Hrows.
  - unfold scaler_transform. simpl length. rewrite Hm. simpl Nat.eqb. cbv iota.
    eexists _, _. split; [reflexivity |]. split; [reflexivity |].
    rewrite (zip_with_standardize_Qeq _ _ Hrows).
    apply Forall2_same_length_lookup. split; [reflexivity |].
    intros i x y Hix Hiy. rewrite Hix in Hiy. injection Hiy as <-. reflexivity.
Qed.

Lemma form_pipelines_agree_witness :
  exists params xs ys,
    render_diagnosis_form 150 150 115 38 170 32 (4 # 5) 70 true = Some params /\
    BaseDiagnosisModel.preprocess_data sample_model params = Ok xs /\
    RandomForestModel.preprocess_data sample_model params = Ok ys /\
    Forall2 Qeq xs ys.
Proof.
  destruct (form_pipelines_agree 150 150 115 38 170 32 (4 # 5) 70 true _ sample_model
              sample_widget_ranges eq_refl) as (xs & ys & H1 & H2 & H3).
  - right. exists [0; 0; 0; 0; 0; 0; 0]%Q, [1; 1; 1; 1; 1; 1; 1]%Q.
    split; reflexivity.
  - eexists _, xs, ys. split; [reflexivity |]. auto.
Defined.

End FormClaims.
